(** * DailyAI_Scholar: the daily top-10 pipeline of [src/daily_top10.py]

    A shallow embedding of the four functions of the module

      - [get_specific_date_papers]  (the date-window collector),
      - [save_top10]                (the ranker, with its CSV artifact),
      - [analyze_and_generate_report] (the reporter),
      - [run_daily_top10]           (the daily run),

    followed by the properties the specification states about them.

    Conventions of the embedding.

      - An instant (a timezone-aware [datetime]) is the number of
        microseconds since 1970-01-01T00:00:00 UTC, a [Z]; a [timedelta] of
        one day is [DAY].  The range limits of [datetime] (years 1 to 9999)
        are not modelled.
      - [target_date], the string ['YYYY-MM-DD'] in the source, is the day
        number it denotes (days since 1970-01-01); [strptime] of it is that
        day's midnight.
      - A finite Python [float] is a rational, a [Q]; the scorer is specified
        to return a real number, so NaN does not occur as a score.
      - [print] appends a [Print] event to the log of the world; the other
        side effects (directories, files, report, email) append an event of
        their own when they are invoked.
      - [time.sleep] only passes time and is left out.
      - An exception, an [exn], is an instance of [Exception]: what the two
        [except Exception] clauses catch.  [KeyboardInterrupt], [SystemExit]
        and the like, which they let through, are outside the model.
      - A [str] is the string of its characters, each an [ascii]: text is
        taken to be ASCII.  (For other text [len] and slices count
        characters where [String.length] and [substring] count bytes; only
        the console line of [row_message] depends on it.)
      - [analyze_each] takes the dict an analysis returns as a value, that
        is, as a new object at every call.  [analyze_each_refs] is the same
        loop with the identity of the objects, for a service that may return
        one object more than once; [analyze_each_refs_fresh] relates the
        two. *)

From Stdlib Require Import String Ascii.
From Stdlib Require Import ZArith QArith List Bool Lia Sorted Permutation.
Import ListNotations.
Local Open Scope Z_scope.

(** ** Exceptions and results *)

Inductive exn : Type :=
| Exception (msg : string).

Inductive Result (A : Type) : Type :=
| Ok (a : A)
| Raise (e : exn).
Arguments Ok {A} a.
Arguments Raise {A} e.

(** ** Instants, days and [strftime] *)

Definition DAY : Z := 86400000000.
Definition SECOND : Z := 1000000.

(** The day number of an instant (its UTC calendar day). *)
Definition day_of (t : Z) : Z := t / DAY.

(** Proleptic Gregorian date (year, month, day) of a day number. *)
Definition civil_from_days (days : Z) : Z * Z * Z :=
  let z := days + 719468 in
  let era := z / 146097 in
  let doe := z - era * 146097 in
  let yoe := (doe - doe / 1460 + doe / 36524 - doe / 146096) / 365 in
  let y := yoe + era * 400 in
  let doy := doe - (365 * yoe + yoe / 4 - yoe / 100) in
  let mp := (5 * doy + 2) / 153 in
  let d := doy - (153 * mp + 2) / 5 + 1 in
  let m := if mp <? 10 then mp + 3 else mp - 9 in
  (if m <=? 2 then y + 1 else y, m, d).

Definition digit (n : Z) : string :=
  String (ascii_of_nat (48 + Z.to_nat (n mod 10))) EmptyString.

Definition fmt2 (n : Z) : string := (digit (n / 10) ++ digit n)%string.
Definition fmt4 (n : Z) : string :=
  (digit (n / 1000) ++ digit (n / 100) ++ digit (n / 10) ++ digit n)%string.

(** [strftime('%Y-%m-%d')] *)
Definition strftime_Y_m_d (t : Z) : string :=
  let '(y, m, d) := civil_from_days (day_of t) in
  (fmt4 y ++ "-" ++ fmt2 m ++ "-" ++ fmt2 d)%string.

(** [strftime('%Y%m%d')] *)
Definition strftime_Ymd (t : Z) : string :=
  let '(y, m, d) := civil_from_days (day_of t) in
  (fmt4 y ++ fmt2 m ++ fmt2 d)%string.

(** [strftime("%Y%m%d_%H%M%S")] *)
Definition strftime_Ymd_HMS (t : Z) : string :=
  let s := (t mod DAY) / SECOND in
  (strftime_Ymd t ++ "_" ++ fmt2 (s / 3600) ++ fmt2 ((s / 60) mod 60) ++ fmt2 (s mod 60))%string.

(** ** Papers and the upstream feed *)

(** An [arxiv.Result], with the attributes the module reads. *)
Record Paper : Type := {
  entry_id : string;
  title : string;
  authors : list string;
  categories : list string;
  summary : string;
  published : Z;
  updated : Z
}.

(** How the generator [client.results(search)] ends: it is exhausted, or it
    raises (a transport error) when the next item is requested. *)
Inductive FeedEnd : Type :=
| StopIteration
| FeedError (e : exn).

Record Feed : Type := {
  feed_items : list Paper;
  feed_end : FeedEnd
}.

(** ** Console messages and events *)

(** One constructor per [print] of the module. *)
Inductive Message : Type :=
| MsgLookback (target_date : Z) (error_retries : Z)
| MsgCollectError (e : exn)
| MsgTop10Header (target_date : Z)
| MsgTop10Columns
| MsgTop10Rule
| MsgTop10Row (rank : Z) (title url : string) (score : Q) (authors : Z)
              (categories published updated : string)
| MsgCsvSaved (csv_file : string)
| MsgAnalyzing
| MsgAnalysisStart (title : string)
| MsgAnalysisDone (title : string)
| MsgAnalysisSaved (analysis_file : string)
| MsgHtmlGenerating
| MsgHtmlGenerated (report_file : string)
| MsgEmailSending
| MsgFetching (target_date : Z)
| MsgFetched (n : nat)
| MsgRunError (e : exn).

(** ** The date-window collector: [get_specific_date_papers] *)

(** The local variables the loop updates. *)
Record ScanState : Type := {
  target_start : Z;
  error_retries : Z;
  papers : list Paper
}.

Inductive Control : Type :=
| Continue   (* go on with the next item of the feed *)
| Break.

(** The body of the [for] loop, for one item of the feed: the next state,
    whether the loop goes on, and what was printed. *)
Definition loop_body (target_date target_end : Z) (st : ScanState) (paper : Paper)
  : Control * ScanState * list Message :=
  if published paper >=? target_end then (Continue, st, [])
  else if published paper <? target_start st then
    if (Nat.eqb (length (papers st)) 0 && (error_retries st <? 3))%bool then
      let retries := error_retries st + 1 in
      (Continue,
       {| target_start := target_start st - DAY;
          error_retries := retries;
          papers := papers st |},
       [MsgLookback target_date retries])
    else (Break, st, [])
  else
    (Continue,
     {| target_start := target_start st;
        error_retries := error_retries st;
        papers := papers st ++ [paper] |},
     []).

(** How the [for] loop was left. *)
Inductive Exit : Type :=
| Exhausted            (* the feed ended *)
| Broke                (* [break] *)
| Raised (e : exn).    (* the feed raised *)

Record Scan : Type := {
  final : ScanState;
  exit : Exit;
  printed : list Message
}.

(** The [for] loop over the items the feed yields, then its end. *)
Fixpoint for_loop (target_date target_end : Z) (items : list Paper) (fin : FeedEnd)
  (st : ScanState) : Scan :=
  match items with
  | [] =>
      {| final := st;
         exit := match fin with StopIteration => Exhausted | FeedError e => Raised e end;
         printed := [] |}
  | paper :: rest =>
      match loop_body target_date target_end st paper with
      | (Break, st', out) => {| final := st'; exit := Broke; printed := out |}
      | (Continue, st', out) =>
          let r := for_loop target_date target_end rest fin st' in
          {| final := final r; exit := exit r; printed := out ++ printed r |}
      end
  end.

(** The states of the loop in the order they are reached: the initial one,
    then the state after each item the loop has taken. *)
Fixpoint visited (target_date target_end : Z) (items : list Paper) (st : ScanState)
  : list ScanState :=
  st ::
  match items with
  | [] => []
  | paper :: rest =>
      match loop_body target_date target_end st paper with
      | (Break, _, _) => []
      | (Continue, st', _) => visited target_date target_end rest st'
      end
  end.

Definition initial_state (target_date : Z) : ScanState :=
  {| target_start := target_date * DAY; error_retries := 0; papers := [] |}.

Definition window_end (target_date : Z) : Z := target_date * DAY + DAY.

(** The [try] block of [get_specific_date_papers]. *)
Definition scan (results : Feed) (target_date : Z) : Scan :=
  for_loop target_date (window_end target_date)
           (feed_items results) (feed_end results) (initial_state target_date).

(** The value of [get_specific_date_papers] and what it printed: the
    [except] clause prints the error and re-raises when [papers] is empty. *)
Definition collect (results : Feed) (target_date : Z) : Result (list Paper) * list Message :=
  let r := scan results target_date in
  match exit r with
  | Raised e =>
      let out := printed r ++ [MsgCollectError e] in
      match papers (final r) with
      | [] => (Raise e, out)
      | _ :: _ => (Ok (papers (final r)), out)
      end
  | _ => (Ok (papers (final r)), printed r)
  end.

(** One step of the loop, as a relation between the state before and the
    state after: the state is kept (the paper is too new), the window is
    extended, the loop is left, or the paper is appended. *)
Inductive step (target_end : Z) (st : ScanState) (paper : Paper)
  : Control -> ScanState -> Prop :=
| step_too_new :
    target_end <= published paper ->
    step target_end st paper Continue st
| step_extend :
    published paper < target_end ->
    published paper < target_start st ->
    papers st = [] ->
    error_retries st < 3 ->
    step target_end st paper Continue
         {| target_start := target_start st - DAY;
            error_retries := error_retries st + 1;
            papers := [] |}
| step_break :
    published paper < target_end ->
    published paper < target_start st ->
    papers st <> [] \/ 3 <= error_retries st ->
    step target_end st paper Break st
| step_append :
    target_start st <= published paper < target_end ->
    step target_end st paper Continue
         {| target_start := target_start st;
            error_retries := error_retries st;
            papers := papers st ++ [paper] |}.

(** What holds of every state of a scan that started with the window at
    [start0]: the window start is [start0] moved back by one day per
    extension, at most three of them, and every collected paper lies in the
    current window. *)
Definition window_invariant (start0 target_end : Z) (st : ScanState) : Prop :=
  0 <= error_retries st <= 3 /\
  target_start st = start0 - error_retries st * DAY /\
  Forall (fun p => target_start st <= published p < target_end) (papers st).

(** How the window may differ between a state and the next one: it is kept,
    or its start moves back by exactly one day, which counts as one more
    extension and happens only while nothing has been collected. *)
Definition window_kept_or_extended (st st' : ScanState) : Prop :=
  (target_start st' = target_start st /\ error_retries st' = error_retries st) \/
  (target_start st' = target_start st - DAY /\
   error_retries st' = error_retries st + 1 /\
   papers st = [] /\ papers st' = []).

(** How often the window start moves back along a sequence of states. *)
Fixpoint extensions (trace : list ScanState) : Z :=
  match trace with
  | [] => 0
  | st :: rest =>
      match rest with
      | [] => 0
      | st' :: _ =>
          (if target_start st' <? target_start st then 1 else 0) + extensions rest
      end
  end.

(** ** Python values, dictionaries and data frames *)

Inductive PyValue : Type :=
| PyInt (z : Z)
| PyFloat (q : Q)
| PyStr (s : string).

(** A [dict]: its items in insertion order. *)
Definition Dict : Type := list (string * PyValue).

Definition keys (d : Dict) : list string := map fst d.

Fixpoint dict_get (k : string) (d : Dict) : option PyValue :=
  match d with
  | [] => None
  | (k', v) :: d' => if String.eqb k k' then Some v else dict_get k d'
  end.

(** [d[k] = v]: an existing key keeps its place, a new one is added last. *)
Fixpoint dict_set (k : string) (v : PyValue) (d : Dict) : Dict :=
  match d with
  | [] => [(k, v)]
  | (k', v') :: d' =>
      if String.eqb k k' then (k', v) :: d' else (k', v') :: dict_set k v d'
  end.

Definition mem_string (k : string) (l : list string) : bool :=
  existsb (String.eqb k) l.

(** A [pandas.DataFrame]: its column labels, and one list of cells per row. *)
Record DataFrame : Type := {
  columns : list string;
  rows : list (list (option PyValue))
}.

(** [pd.DataFrame(records)] for a list of dictionaries: the columns are the
    keys of the records in the order they first occur; a list with no
    record gives a frame with no column. *)
Definition pd_DataFrame (records : list Dict) : DataFrame :=
  let cols :=
    fold_left
      (fun cols d => cols ++ filter (fun k => negb (mem_string k cols)) (keys d))
      records [] in
  {| columns := cols;
     rows := map (fun d => map (fun c => dict_get c d) cols) records |}.

(** ** Sorting: [list.sort(key=..., reverse=...)]

    CPython's sort compares the keys with [<] only and is stable; with
    [reverse=True] it reverses the list, sorts it, and reverses the result, so
    that items with equal keys keep their order.  Where [<] on the keys is a
    strict weak order the result of a stable sort is determined, so a stable
    insertion sort stands for the library's merge sort. *)

Section ListSort.
Context {A K : Type}.
Variable key : A -> K.
Variable lt : K -> K -> bool.

(** [x] goes after the items of [l] whose key is smaller, and before the
    others: [x] came before them in the list that is sorted. *)
Fixpoint insert_sorted (x : A) (l : list A) : list A :=
  match l with
  | [] => [x]
  | y :: l' => if lt (key y) (key x) then y :: insert_sorted x l' else x :: y :: l'
  end.

Definition stable_sort (l : list A) : list A := fold_right insert_sorted [] l.

Definition list_sort (reverse : bool) (l : list A) : list A :=
  if reverse then rev (stable_sort (rev l)) else stable_sort l.

(** The key of [a] compares equal to [v]: neither is smaller. *)
Definition same_key (v : K) (a : A) : bool :=
  negb (lt (key a) v) && negb (lt v (key a)).
End ListSort.

(** [x < y] on scores. *)
Definition Qlt_bool (x y : Q) : bool :=
  match Qcompare x y with
  | Lt => true
  | _ => false
  end.

(** ** The ranker: [save_top10] *)

(** An item of [paper_scores]: the dictionary built for a paper, with the
    keys of the dict display. *)
Module Scored.
Record t : Type := {
  rank : Z;
  title : string;
  url : string;
  score : Q;
  authors : Z;
  categories : string;
  published : string;
  updated : string;
  abstract : string
}.

(** [paper['rank'] = i] *)
Definition set_rank (i : Z) (r : t) : t :=
  {| rank := i; title := title r; url := url r; score := score r;
     authors := authors r; categories := categories r;
     published := published r; updated := updated r; abstract := abstract r |}.

(** The dictionary itself, its keys in the order of the dict display. *)
Definition as_dict (r : t) : Dict :=
  [ ("rank", PyInt (rank r));
    ("title", PyStr (title r));
    ("url", PyStr (url r));
    ("score", PyFloat (score r));
    ("authors", PyInt (authors r));
    ("categories", PyStr (categories r));
    ("published", PyStr (published r));
    ("updated", PyStr (updated r));
    ("abstract", PyStr (abstract r)) ]%string.
End Scored.

(** [s.replace('\n', ' ')] *)
Fixpoint replace_newlines (s : string) : string :=
  match s with
  | EmptyString => EmptyString
  | String c s' =>
      String (if Ascii.eqb c (ascii_of_nat 10) then ascii_of_nat 32 else c)
             (replace_newlines s')
  end.

(** The item appended to [paper_scores] for [paper], whose score is [score]. *)
Definition scored (score : Q) (paper : Paper) : Scored.t :=
  {| Scored.rank := 0;
     Scored.title := replace_newlines (title paper);
     Scored.url := entry_id paper;
     Scored.score := score;
     Scored.authors := Z.of_nat (List.length (authors paper));
     Scored.categories := String.concat ", " (categories paper);
     Scored.published := strftime_Y_m_d (published paper);
     Scored.updated := strftime_Y_m_d (updated paper);
     Scored.abstract := replace_newlines (summary paper) |}.

(** [for i, paper in enumerate(top10, i0): paper['rank'] = i] *)
Fixpoint enumerate_rank (i : Z) (top10 : list Scored.t) : list Scored.t :=
  match top10 with
  | [] => []
  | paper :: rest => Scored.set_rank i paper :: enumerate_rank (i + 1) rest
  end.

(** [paper_scores] after the first loop, for a scorer [analyze_paper]. *)
Definition paper_scores (analyze_paper : Paper -> Q) (papers : list Paper) : list Scored.t :=
  map (fun paper => scored (analyze_paper paper) paper) papers.

(** [paper_scores.sort(key=lambda x: x['score'], reverse=True)] *)
Definition sort_by_score (l : list Scored.t) : list Scored.t :=
  list_sort Scored.score Qlt_bool true l.

(** The list [save_top10] returns: the first ten of the sorted list, with
    their ranks. *)
Definition top10_of (analyze_paper : Paper -> Q) (papers : list Paper) : list Scored.t :=
  enumerate_rank 1 (firstn 10 (sort_by_score (paper_scores analyze_paper papers))).

(** The keys of the dict display of [save_top10], in its order. *)
Definition top10_columns : list string :=
  ["rank"; "title"; "url"; "score"; "authors"; "categories"; "published";
   "updated"; "abstract"]%string.

(** The cells of the row of an item, in the order of the dict display. *)
Definition top10_row (r : Scored.t) : list (option PyValue) :=
  [Some (PyInt (Scored.rank r)); Some (PyStr (Scored.title r));
   Some (PyStr (Scored.url r)); Some (PyFloat (Scored.score r));
   Some (PyInt (Scored.authors r)); Some (PyStr (Scored.categories r));
   Some (PyStr (Scored.published r)); Some (PyStr (Scored.updated r));
   Some (PyStr (Scored.abstract r))].

(** A string of the form [cccc-cc-cc]. *)
Definition dashed_date (s : string) : Prop :=
  String.length s = 10%nat /\
  String.get 4 s = Some "-"%char /\
  String.get 7 s = Some "-"%char.

(** ** The world of a run *)

Inductive Event : Type :=
| Print (m : Message)
| Makedirs (path : string)
| ToCsv (csv_file : string) (df : DataFrame)
| JsonDump (analysis_file : string) (analysis_results : list Dict)
| GenerateReport (analysis_results : list Dict)
| SendReport (analysis_results : list Dict).

(** The collaborators of the module and what a run reads from outside.  A
    collaborator answers by its argument: it returns a value or raises. *)
Record Env : Type := {
  (** the [k]-th reading of the system clock, a UTC instant *)
  clock : nat -> Z;
  (** the offset of local time, for the naive [datetime.now()] *)
  utcoffset : Z;
  (** [client.results(search)] *)
  client_results : Feed;
  (** [PaperQualityAnalyzer().analyze_paper] *)
  analyzer_analyze_paper : Paper -> Q;
  (** [paper_analyzer.analyze_paper] *)
  paper_analyzer_analyze_paper : Scored.t -> Result Dict;
  (** [analysis_manager.generate_report] *)
  analysis_manager_generate_report : list Dict -> Result string;
  (** [EmailSender().send_report] *)
  email_sender_send_report : list Dict -> Result unit
}.

Record World : Type := {
  ticks : nat;          (* how often the clock has been read *)
  log : list Event      (* the events so far, oldest first *)
}.

(** A computation that reads and changes the world and may raise. *)
Definition M (A : Type) : Type := World -> Result A * World.

Definition ret {A : Type} (a : A) : M A := fun w => (Ok a, w).

Definition bind {A B : Type} (c : M A) (k : A -> M B) : M B :=
  fun w =>
    match c w with
    | (Ok a, w') => k a w'
    | (Raise e, w') => (Raise e, w')
    end.

Notation "x <- c ;; k" := (bind c (fun x => k))
  (at level 61, c at next level, right associativity).
Notation "c ;; k" := (bind c (fun _ => k))
  (at level 61, right associativity).

(** [try: body except Exception as e: handler(e)] *)
Definition try_except {A : Type} (body : M A) (handler : exn -> M A) : M A :=
  fun w =>
    match body w with
    | (Ok a, w') => (Ok a, w')
    | (Raise e, w') => handler e w'
    end.

Definition emit (ev : Event) : M unit :=
  fun w => (Ok tt, {| ticks := ticks w; log := log w ++ [ev] |}).

Definition print (m : Message) : M unit := emit (Print m).

Fixpoint print_all (ms : list Message) : M unit :=
  match ms with
  | [] => ret tt
  | m :: ms' => print m ;; print_all ms'
  end.

(** The result of a collaborator's call. *)
Definition call {A : Type} (r : Result A) : M A := fun w => (r, w).

(** [datetime.datetime.now(pytz.UTC)] *)
Definition datetime_now_utc (env : Env) : M Z :=
  fun w => (Ok (clock env (ticks w)), {| ticks := S (ticks w); log := log w |}).

(** [datetime.datetime.now()]: the local wall clock. *)
Definition datetime_now (env : Env) : M Z :=
  fun w => (Ok (clock env (ticks w) + utcoffset env),
            {| ticks := S (ticks w); log := log w |}).

Definition get_specific_date_papers (env : Env) (target_date : Z) : M (list Paper) :=
  let '(result, out) := collect (client_results env) target_date in
  print_all out ;; call result.

(** The line printed for a row of the frame. *)
Definition row_message (paper : Scored.t) : Message :=
  let t := Scored.title paper in
  let shown :=
    if (70 <? String.length t)%nat then (String.substring 0 70 t ++ "...")%string else t in
  MsgTop10Row (Scored.rank paper) shown (Scored.url paper) (Scored.score paper)
              (Scored.authors paper) (Scored.categories paper)
              (Scored.published paper) (Scored.updated paper).

Definition csv_path (now : Z) : string :=
  ("data/daily_top10/top10_" ++ strftime_Ymd now ++ ".csv")%string.

Definition save_top10 (env : Env) (papers : list Paper) (target_date : Z)
  : M (list Scored.t) :=
  let top10 := top10_of (analyzer_analyze_paper env) papers in
  let df := pd_DataFrame (map Scored.as_dict top10) in
  print (MsgTop10Header target_date) ;;
  print MsgTop10Columns ;;
  print MsgTop10Rule ;;
  print_all (map row_message top10) ;;
  emit (Makedirs "data/daily_top10") ;;
  current <- datetime_now_utc env ;;
  let csv_file := csv_path current in
  emit (ToCsv csv_file df) ;;
  print (MsgCsvSaved csv_file) ;;
  ret top10.

(** ** The reporter: [analyze_and_generate_report] *)

(** The loop over [top10_papers]; [analysis_results] is the list so far. *)
Fixpoint analyze_each (env : Env) (top10_papers : list Scored.t)
  (analysis_results : list Dict) : M (list Dict) :=
  match top10_papers with
  | [] => ret analysis_results
  | paper :: rest =>
      print (MsgAnalysisStart (Scored.title paper)) ;;
      result <- call (paper_analyzer_analyze_paper env paper) ;;
      let result := dict_set "submission_date" (PyStr (Scored.published paper)) result in
      let result := dict_set "html_url" (PyStr (Scored.url paper)) result in
      print (MsgAnalysisDone (Scored.title paper)) ;;
      analyze_each env rest (analysis_results ++ [result])
  end.

Definition json_path (now : Z) : string :=
  ("data/analysis/analysis_results_" ++ strftime_Ymd_HMS now ++ ".json")%string.

Definition analyze_and_generate_report (env : Env) (papers : list Paper)
  (target_date : Z) : M (list Dict) :=
  print MsgAnalyzing ;;
  emit (Makedirs "data/analysis") ;;
  emit (Makedirs "config") ;;
  top10_papers <- save_top10 env papers target_date ;;
  analysis_results <- analyze_each env top10_papers [] ;;
  timestamp <- datetime_now env ;;
  let analysis_file := json_path timestamp in
  emit (JsonDump analysis_file analysis_results) ;;
  print (MsgAnalysisSaved analysis_file) ;;
  print MsgHtmlGenerating ;;
  emit (GenerateReport analysis_results) ;;
  report_file <- call (analysis_manager_generate_report env analysis_results) ;;
  print (MsgHtmlGenerated report_file) ;;
  print MsgEmailSending ;;
  emit (SendReport analysis_results) ;;
  call (email_sender_send_report env analysis_results) ;;
  ret analysis_results.

(** ** The daily run: [run_daily_top10] *)

Definition run_daily_top10 (env : Env) : M unit :=
  try_except
    (today <- datetime_now_utc env ;;
     let yesterday := today - DAY in
     let target_date := day_of yesterday in
     print (MsgFetching target_date) ;;
     papers <- get_specific_date_papers env target_date ;;
     print (MsgFetched (List.length papers)) ;;
     analyze_and_generate_report env papers target_date ;;
     ret tt)
    (fun e => print (MsgRunError e)).

(** Whether an event is one of the report's artifacts: the JSON document,
    the HTML report, the email. *)
Definition is_report_event (ev : Event) : bool :=
  match ev with
  | JsonDump _ _ | GenerateReport _ | SendReport _ => true
  | _ => false
  end.

(** The target date of a run started in world [w]: yesterday in UTC. *)
Definition run_target_date (env : Env) (w : World) : Z :=
  day_of (clock env (ticks w) - DAY).

(** What [analyze_and_generate_report] has done when the loop over the top
    10 starts. *)
Definition events_before_analysis (env : Env) (papers : list Paper)
  (target_date : Z) (w : World) : list Event :=
  let top10 := top10_of (analyzer_analyze_paper env) papers in
  [Print MsgAnalyzing; Makedirs "data/analysis"; Makedirs "config"] ++
  ([Print (MsgTop10Header target_date); Print MsgTop10Columns;
    Print MsgTop10Rule] ++ map Print (map row_message top10)) ++
  [Makedirs "data/daily_top10";
   ToCsv (csv_path (clock env (ticks w))) (pd_DataFrame (map Scored.as_dict top10));
   Print (MsgCsvSaved (csv_path (clock env (ticks w))))].

(** ** Sample inputs *)

Module Sample.

(** 2024-02-29 *)
Definition target : Z := 19782.

Definition paper_at (id : string) (t : Z) : Paper :=
  {| entry_id := id; title := id; authors := ["A. Author"%string];
     categories := ["cs.AI"%string; "cs.LG"%string]; summary := "abstract"%string;
     published := t; updated := t |}.

Definition HOUR : Z := 3600 * SECOND.

(** Published the day before the target day, at 23:00 and at 22:00. *)
Definition p1 : Paper := paper_at "p1" (target * DAY - HOUR).
Definition p2 : Paper := paper_at "p2" (target * DAY - 2 * HOUR).
(** Published on the target day, at 10:00 and at 09:00. *)
Definition q1 : Paper := paper_at "q1" (target * DAY + 10 * HOUR).
Definition q2 : Paper := paper_at "q2" (target * DAY + 9 * HOUR).
(** Published the day after the target day. *)
Definition n1 : Paper := paper_at "n1" (target * DAY + DAY + HOUR).

Definition timeout : exn := Exception "HTTP 503".

(** The feed is down from the first request. *)
Definition feed_down : Feed := {| feed_items := []; feed_end := FeedError timeout |}.

(** Nothing on the target day; two papers the day before. *)
Definition feed_sparse : Feed := {| feed_items := [n1; p1; p2]; feed_end := StopIteration |}.

(** Two papers of the target day, then the feed fails. *)
Definition feed_partial : Feed :=
  {| feed_items := [n1; q1; q2]; feed_end := FeedError timeout |}.

Definition feed_day : Feed := {| feed_items := [n1; q1; q2; p1]; feed_end := StopIteration |}.

(** One paper in each of the three days before that of [p1], each an hour
    before midnight. *)
Definition o1 : Paper := paper_at "o1" (target * DAY - DAY - HOUR).
Definition o2 : Paper := paper_at "o2" (target * DAY - 2 * DAY - HOUR).
Definition o3 : Paper := paper_at "o3" (target * DAY - 3 * DAY - HOUR).

(** Only records older than every window the scan tries, then an error. *)
Definition feed_old_then_down : Feed :=
  {| feed_items := [p1; o1; o2]; feed_end := FeedError timeout |}.

(** As before, with one more old record instead of the error. *)
Definition feed_old : Feed :=
  {| feed_items := [p1; o1; o2; o3]; feed_end := StopIteration |}.

(** Fifteen papers of the target day, scored 1 to 15 by [minute_score]. *)
Definition minute_paper (k : nat) : Paper :=
  paper_at "m" (target * DAY + Z.of_nat k * 60 * SECOND).

Definition fifteen : list Paper := map minute_paper (seq 1 15).

Definition minute_score (p : Paper) : Q :=
  inject_Z ((published p - target * DAY) / (60 * SECOND)).

Definition scorer (p : Paper) : Q :=
  if String.eqb (entry_id p) "q2" then 3 # 4 else 1 # 2.

Definition analysis (r : Scored.t) : Result Dict :=
  Ok [("summary"%string, PyStr (Scored.abstract r))].

(** An analysis service that fails on the paper [q1]. *)
Definition analysis_failing (r : Scored.t) : Result Dict :=
  if String.eqb (Scored.url r) "q1" then Raise (Exception "analysis failed")
  else analysis r.

(** A run at 00:30 UTC of the day after the target day; the clock advances
    one second per reading; local time is UTC+9. *)
Definition env_of (results : Feed) (deep : Scored.t -> Result Dict) : Env :=
  {| clock := fun k => (target + 1) * DAY + HOUR / 2 + Z.of_nat k * SECOND;
     utcoffset := 9 * HOUR;
     client_results := results;
     analyzer_analyze_paper := scorer;
     paper_analyzer_analyze_paper := deep;
     analysis_manager_generate_report := fun _ => Ok "reports/report.html"%string;
     email_sender_send_report := fun _ => Ok tt |}.

Definition world0 : World := {| ticks := 0; log := [] |}.

End Sample.

(** ** Notions used to state further properties *)

(** [l1] is [l2] with some items left out, the others in their order. *)
Inductive subseq {A : Type} : list A -> list A -> Prop :=
| subseq_nil : subseq [] []
| subseq_skip x l1 l2 : subseq l1 l2 -> subseq l1 (x :: l2)
| subseq_take x l1 l2 : subseq l1 l2 -> subseq (x :: l1) (x :: l2).

(** Whether [paper] was published in the window [[start, target_end)]. *)
Definition in_window (start target_end : Z) (paper : Paper) : bool :=
  (start <=? published paper) && (published paper <? target_end).

(** Whether the character [c] occurs in [s]. *)
Fixpoint has_char (c : ascii) (s : string) : bool :=
  match s with
  | EmptyString => false
  | String c' s' => Ascii.eqb c c' || has_char c s'
  end.

(** The day number of a proleptic Gregorian date: the inverse of
    [civil_from_days], by which a date names one day. *)
Definition days_from_civil (y m d : Z) : Z :=
  let y' := if m <=? 2 then y - 1 else y in
  let era := y' / 400 in
  let yoe := y' - era * 400 in
  let mp := if 2 <? m then m - 3 else m + 9 in
  let doy := (153 * mp + 2) / 5 + d - 1 in
  let doe := yoe * 365 + yoe / 4 - yoe / 100 + doy in
  era * 146097 + doe - 719468.

(** The days from 1000-01-01 to 9999-12-31: those a [datetime] can hold and
    whose year [%Y] writes with four digits on every platform. *)
Definition datetime_day (day : Z) : Prop := -354285 <= day <= 2932896.

(** The two assignments to [result] in the loop of
    [analyze_and_generate_report]. *)
Definition with_paper_fields (paper : Scored.t) (result : Dict) : Dict :=
  dict_set "html_url" (PyStr (Scored.url paper))
    (dict_set "submission_date" (PyStr (Scored.published paper)) result).

(** The value of the loop of [analyze_and_generate_report] over
    [top10_papers]: the results, each with the two fields of its paper, or the
    exception of the first analysis that raises. *)
Fixpoint analysis_results_of (env : Env) (top10_papers : list Scored.t)
  : Result (list Dict) :=
  match top10_papers with
  | [] => Ok []
  | paper :: rest =>
      match paper_analyzer_analyze_paper env paper with
      | Raise e => Raise e
      | Ok result =>
          match analysis_results_of env rest with
          | Raise e => Raise e
          | Ok results => Ok (with_paper_fields paper result :: results)
          end
      end
  end.

(** *** The results as objects

    A [dict] is an object: the loop of [analyze_and_generate_report] assigns
    to the dict the analysis returned, in place, and appends that same object
    to [analysis_results].  The heap holds the items of each object; a
    reference is the identity of one. *)
Definition Ref : Type := nat.
Definition Heap : Type := list (Ref * Dict).

Fixpoint heap_get (r : Ref) (heap : Heap) : option Dict :=
  match heap with
  | [] => None
  | (r', d) :: heap' => if Nat.eqb r r' then Some d else heap_get r heap'
  end.

Fixpoint heap_set (r : Ref) (d : Dict) (heap : Heap) : Heap :=
  match heap with
  | [] => [(r, d)]
  | (r', d') :: heap' =>
      if Nat.eqb r r' then (r', d) :: heap' else (r', d') :: heap_set r d heap'
  end.

(** [obj[k] = v] on the object [r]. *)
Definition heap_assign (r : Ref) (k : string) (v : PyValue) (heap : Heap) : Heap :=
  match heap_get r heap with
  | Some d => heap_set r (dict_set k v d) heap
  | None => heap
  end.

(** The loop over [top10_papers] with the identity of the results.  A call
    of [service] returns an object, new or one it has returned before, and
    the items the object has when it is returned, or it raises. *)
Fixpoint analyze_each_refs (service : Scored.t -> Result (Ref * Dict))
  (top10_papers : list Scored.t) (heap : Heap) (analysis_results : list Ref)
  : Result (list Ref) * Heap :=
  match top10_papers with
  | [] => (Ok analysis_results, heap)
  | paper :: rest =>
      match service paper with
      | Raise e => (Raise e, heap)
      | Ok (result, d) =>
          let heap := heap_set result d heap in
          let heap :=
            heap_assign result "submission_date" (PyStr (Scored.published paper)) heap in
          let heap := heap_assign result "html_url" (PyStr (Scored.url paper)) heap in
          analyze_each_refs service rest heap (analysis_results ++ [result])
      end
  end.

(** The items of an object that was returned for [paper] with the items [d]
    and has had the two assignments of the loop. *)
Definition carries (paper : Scored.t) (d obj : Dict) : Prop :=
  dict_get "submission_date" obj = Some (PyStr (Scored.published paper)) /\
  dict_get "html_url" obj = Some (PyStr (Scored.url paper)) /\
  (forall k, k <> "submission_date"%string -> k <> "html_url"%string ->
             dict_get k obj = dict_get k d).

(** The events of the report in the order of the source, for the file
    [analysis_file] and the list [analysis_results]. *)
Definition report_events (analysis_file : string) (analysis_results : list Dict)
  : list Event :=
  [JsonDump analysis_file analysis_results;
   GenerateReport analysis_results;
   SendReport analysis_results].

(** Further sample collaborators. *)
Module Cases.

(** The renderer fails. *)
Definition env_render_fails : Env :=
  {| clock := clock (Sample.env_of Sample.feed_day Sample.analysis);
     utcoffset := 9 * Sample.HOUR;
     client_results := Sample.feed_day;
     analyzer_analyze_paper := Sample.scorer;
     paper_analyzer_analyze_paper := Sample.analysis;
     analysis_manager_generate_report := fun _ => Raise (Exception "template missing");
     email_sender_send_report := fun _ => Ok tt |}.

(** The email transport fails. *)
Definition env_email_fails : Env :=
  {| clock := clock (Sample.env_of Sample.feed_day Sample.analysis);
     utcoffset := 9 * Sample.HOUR;
     client_results := Sample.feed_day;
     analyzer_analyze_paper := Sample.scorer;
     paper_analyzer_analyze_paper := Sample.analysis;
     analysis_manager_generate_report := fun _ => Ok "reports/report.html"%string;
     email_sender_send_report := fun _ => Raise (Exception "SMTP refused") |}.

(** A feed in descending order of submission with nothing on the target
    day: one paper of the day after, three of the day before. *)
Definition p3 : Paper := Sample.paper_at "p3" (Sample.target * DAY - 3 * Sample.HOUR).

Definition feed_eve : Feed :=
  {| feed_items := [Sample.n1; Sample.p1; Sample.p2; p3; Sample.o1];
     feed_end := StopIteration |}.

(** A paper of the target day whose title and summary hold a line feed. *)
Definition two_lines_paper : Paper :=
  {| entry_id := "t1";
     title := ("deep" ++ String (ascii_of_nat 10) "nets")%string;
     authors := ["A. Author"%string; "B. Author"%string];
     categories := ["cs.AI"%string];
     summary := ("we train" ++ String (ascii_of_nat 10) "them")%string;
     published := Sample.target * DAY + 8 * Sample.HOUR;
     updated := Sample.target * DAY + 8 * Sample.HOUR |}.

(** Two hours before the day before the target day: older than [o1]. *)
Definition o1b : Paper :=
  Sample.paper_at "o1b" (Sample.target * DAY - DAY - 2 * Sample.HOUR).

Definition feed_two_steps : Feed :=
  {| feed_items := [Sample.p1; Sample.o1; o1b]; feed_end := StopIteration |}.

(** An analysis service that fills and returns one dict of its own, the
    same object at every call. *)
Definition service_shared (r : Scored.t) : Result (Ref * Dict) :=
  Ok (0%nat, [("summary"%string, PyStr (Scored.abstract r))]).

(** An analysis service that returns a new dict at every call (here the
    object is numbered by the rank of the paper). *)
Definition service_fresh (r : Scored.t) : Result (Ref * Dict) :=
  Ok (Z.to_nat (Scored.rank r), [("summary"%string, PyStr (Scored.abstract r))]).

(** What the sample analysis gives for the top 10 of the sample day. *)
Definition results : list Dict :=
  Eval vm_compute in
    match analysis_results_of (Sample.env_of Sample.feed_day Sample.analysis)
            (top10_of Sample.scorer [Sample.q1; Sample.q2]) with
    | Ok rs => rs
    | Raise _ => []
    end.

End Cases.

(** * Properties *)

(** ** The collector *)

Lemma last_in_cons {A : Type} (x : A) (l : list A) (d : A) :
  In (last (x :: l) d) (x :: l).
Proof.
  revert x. induction l as [|y l IH]; intros x.
  - now left.
  - right. apply IH.
Qed.

Section Collector.
Variables target_date target_end : Z.

(** The four ways through the loop body. *)
Lemma loop_body_too_new st paper :
  target_end <= published paper ->
  loop_body target_date target_end st paper = (Continue, st, []).
Proof.
  intros H. unfold loop_body.
  destruct (Z.geb_spec (published paper) target_end) as [_|Hlt]; [reflexivity | lia].
Qed.

Lemma loop_body_extend st paper :
  published paper < target_end ->
  published paper < target_start st ->
  papers st = [] ->
  error_retries st < 3 ->
  loop_body target_date target_end st paper =
    (Continue,
     {| target_start := target_start st - DAY;
        error_retries := error_retries st + 1;
        papers := [] |},
     [MsgLookback target_date (error_retries st + 1)]).
Proof.
  intros Hend Hstart Hempty Hretries. unfold loop_body.
  destruct (Z.geb_spec (published paper) target_end); [lia|].
  destruct (Z.ltb_spec (published paper) (target_start st)); [|lia].
  rewrite Hempty. simpl.
  destruct (Z.ltb_spec (error_retries st) 3); [reflexivity | lia].
Qed.

Lemma loop_body_break st paper :
  published paper < target_end ->
  published paper < target_start st ->
  papers st <> [] \/ 3 <= error_retries st ->
  loop_body target_date target_end st paper = (Break, st, []).
Proof.
  intros Hend Hstart Hstop. unfold loop_body.
  destruct (Z.geb_spec (published paper) target_end); [lia|].
  destruct (Z.ltb_spec (published paper) (target_start st)); [|lia].
  destruct (papers st) as [|p ps] eqn:Hp; simpl.
  - destruct Hstop as [Hne|Hge]; [congruence|].
    destruct (Z.ltb_spec (error_retries st) 3); [lia | reflexivity].
  - reflexivity.
Qed.

Lemma loop_body_append st paper :
  target_start st <= published paper < target_end ->
  loop_body target_date target_end st paper =
    (Continue,
     {| target_start := target_start st;
        error_retries := error_retries st;
        papers := papers st ++ [paper] |},
     []).
Proof.
  intros [Hstart Hend]. unfold loop_body.
  destruct (Z.geb_spec (published paper) target_end); [lia|].
  destruct (Z.ltb_spec (published paper) (target_start st)); [lia | reflexivity].
Qed.

Lemma loop_body_step st paper :
  step target_end st paper
       (fst (fst (loop_body target_date target_end st paper)))
                (snd (fst (loop_body target_date target_end st paper))).
Proof.
  destruct (Z_le_gt_dec target_end (published paper)) as [Hnew|Hend].
  - rewrite loop_body_too_new by assumption. now constructor.
  - destruct (Z_lt_ge_dec (published paper) (target_start st)) as [Hold|Hin].
    + destruct (papers st) as [|p ps] eqn:Hp.
      * destruct (Z_lt_ge_dec (error_retries st) 3) as [Hr|Hr].
        -- rewrite loop_body_extend by (assumption || lia).
           simpl. apply step_extend; (assumption || lia).
        -- rewrite loop_body_break by lia.
           simpl. apply step_break; lia.
      * rewrite loop_body_break by (lia || (left; congruence)).
        simpl. apply step_break; (lia || (left; congruence)).
    + rewrite loop_body_append by lia. simpl. apply step_append. lia.
Qed.

Lemma loop_body_cases st paper :
  exists c st' out,
    loop_body target_date target_end st paper = (c, st', out) /\
    step target_end st paper c st'.
Proof.
  pose proof (loop_body_step st paper) as H.
  destruct (loop_body target_date target_end st paper) as [[c st'] out].
  now exists c, st', out.
Qed.

Lemma step_invariant start0 st paper c st' :
  step target_end st paper c st' ->
  window_invariant start0 target_end st ->
  window_invariant start0 target_end st'.
Proof.
  intros Hstep (Hr & Hs & Hp).
  destruct Hstep as [Hnew | Hend Hold Hempty Hlt | Hend Hold Hstop | Hin];
    unfold window_invariant; simpl.
  - auto.
  - repeat split; try lia. constructor.
  - auto.
  - repeat split; try lia. apply Forall_app. split; [assumption|].
    constructor; [lia | constructor].
Qed.

Lemma step_window st paper c st' :
  step target_end st paper c st' -> window_kept_or_extended st st'.
Proof.
  intros [Hnew | Hend Hold Hempty Hlt | Hend Hold Hstop | Hin];
    unfold window_kept_or_extended; simpl; auto.
Qed.

(** What the loop collects comes from the items it was given. *)
Lemma step_papers st paper c st' :
  step target_end st paper c st' ->
  forall q, In q (papers st') -> In q (papers st) \/ q = paper.
Proof.
  intros [Hnew | Hend Hold Hempty Hlt | Hend Hold Hstop | Hin] q; simpl; auto.
  - intros [].
  - rewrite in_app_iff. simpl. intuition.
Qed.

Lemma visited_head items st :
  exists tl, visited target_date target_end items st = st :: tl.
Proof. destruct items; simpl; eauto. Qed.

Lemma visited_last items fin st d :
  last (visited target_date target_end items st) d =
  final (for_loop target_date target_end items fin st).
Proof.
  revert st d. induction items as [|paper rest IH]; intros st d.
  - reflexivity.
  - cbn [visited for_loop].
    destruct (loop_body_cases st paper) as (c & st' & out & E & Hstep).
    rewrite E. destruct c.
    + cbn [final]. rewrite <- (IH st' d).
      destruct (visited_head rest st') as [tl Htl]. rewrite Htl. reflexivity.
    + inversion Hstep; subst; reflexivity.
Qed.

Lemma visited_invariant start0 items st :
  window_invariant start0 target_end st ->
  Forall (window_invariant start0 target_end)
         (visited target_date target_end items st).
Proof.
  revert st. induction items as [|paper rest IH]; intros st Hinv.
  - constructor; [assumption | constructor].
  - cbn [visited]. constructor; [assumption|].
    destruct (loop_body_cases st paper) as (c & st' & out & E & Hstep).
    rewrite E. destruct c; [|constructor].
    apply IH. eapply step_invariant; eassumption.
Qed.

Lemma visited_adjacent items st i a b :
  nth_error (visited target_date target_end items st) i = Some a ->
  nth_error (visited target_date target_end items st) (S i) = Some b ->
  window_kept_or_extended a b.
Proof.
  revert st i. induction items as [|paper rest IH]; intros st i Ha Hb.
  - destruct i; discriminate.
  - cbn [visited] in Ha, Hb.
    destruct (loop_body_cases st paper) as (c & st' & out & E & Hstep).
    rewrite E in Ha, Hb. destruct c.
    + destruct i as [|i].
      * destruct (visited_head rest st') as [tl Htl]. rewrite Htl in Hb.
        simpl in Ha, Hb. inversion Ha; inversion Hb; subst.
        eapply step_window; eassumption.
      * simpl in Ha, Hb. eapply IH; eassumption.
    + destruct i; discriminate.
Qed.

Lemma visited_extensions items fin st :
  extensions (visited target_date target_end items st) =
  error_retries (final (for_loop target_date target_end items fin st)) -
  error_retries st.
Proof.
  revert st. induction items as [|paper rest IH]; intros st.
  - cbn. lia.
  - cbn [visited for_loop].
    destruct (loop_body_cases st paper) as (c & st' & out & E & Hstep).
    rewrite E. destruct c; cbn [final].
    + destruct (visited_head rest st') as [tl Htl].
      pose proof (IH st') as Hrest. rewrite Htl in Hrest |- *.
      change (extensions (st :: st' :: tl))
        with ((if target_start st' <? target_start st then 1 else 0) +
              extensions (st' :: tl)).
      assert (HD : DAY = 86400000000) by reflexivity.
      destruct (step_window _ _ _ _ Hstep) as [[Hs Hr]|(Hs & Hr & _)].
      * destruct (Z.ltb_spec (target_start st') (target_start st)); lia.
      * destruct (Z.ltb_spec (target_start st') (target_start st)); lia.
    + inversion Hstep; subst. cbn. lia.
Qed.

Lemma for_loop_invariant start0 items fin st :
  window_invariant start0 target_end st ->
  window_invariant start0 target_end
    (final (for_loop target_date target_end items fin st)).
Proof.
  intros Hinv. rewrite <- (visited_last items fin st st).
  pose proof (visited_invariant start0 items st Hinv) as Hall.
  rewrite Forall_forall in Hall. apply Hall.
  destruct (visited_head items st) as [tl Htl]. rewrite Htl.
  apply last_in_cons.
Qed.

(** The loop is left by [break], or at the end of the feed. *)
Lemma for_loop_exit items fin st :
  exit (for_loop target_date target_end items fin st) = Broke \/
  exit (for_loop target_date target_end items fin st) =
    match fin with StopIteration => Exhausted | FeedError e => Raised e end.
Proof.
  revert st. induction items as [|paper rest IH]; intros st.
  - now right.
  - cbn [for_loop].
    destruct (loop_body target_date target_end st paper) as [[[|] st'] out];
      cbn [exit]; auto.
Qed.

(** Items that are too new leave the state as it is. *)
Lemma for_loop_skip newer items fin st :
  Forall (fun q => target_end <= published q) newer ->
  for_loop target_date target_end (newer ++ items) fin st =
  for_loop target_date target_end items fin st.
Proof.
  induction 1 as [|q newer Hq _ IH]; [reflexivity|].
  cbn [app for_loop]. rewrite loop_body_too_new by assumption.
  rewrite IH. now destruct (for_loop target_date target_end items fin st).
Qed.

Lemma for_loop_papers items fin st q :
  In q (papers (final (for_loop target_date target_end items fin st))) ->
  In q (papers st) \/ In q items.
Proof.
  revert st. induction items as [|paper rest IH]; intros st Hq.
  - now left.
  - cbn [for_loop] in Hq.
    destruct (loop_body_cases st paper) as (c & st' & out & E & Hstep).
    rewrite E in Hq. destruct c; cbn [final] in Hq.
    + destruct (IH _ Hq) as [Hin|Hin]; [|right; now right].
      destruct (step_papers _ _ _ _ Hstep _ Hin) as [H|H]; [now left|].
      right. left. now symmetry.
    + destruct (step_papers _ _ _ _ Hstep _ Hq) as [H|H]; [now left|].
      right. left. now symmetry.
Qed.
End Collector.

Lemma initial_state_invariant target_date :
  window_invariant (target_date * DAY) (window_end target_date)
                   (initial_state target_date).
Proof.
  unfold window_invariant, initial_state; simpl.
  repeat split; try lia. constructor.
Qed.

Lemma scan_invariant results target_date :
  window_invariant (target_date * DAY) (window_end target_date)
                   (final (scan results target_date)).
Proof. apply for_loop_invariant, initial_state_invariant. Qed.

(** The console output of a list of messages. *)
Lemma print_all_run ms w :
  print_all ms w = (Ok tt, {| ticks := ticks w; log := log w ++ map Print ms |}).
Proof.
  revert w. induction ms as [|m ms IH]; intros w.
  - cbn. rewrite app_nil_r. now destruct w.
  - cbn [print_all map]. unfold bind, print, emit. rewrite IH. cbn.
    now rewrite <- app_assoc.
Qed.

(** [get_specific_date_papers] changes the world by what it prints only, and
    its value is that of [collect]. *)
Lemma get_specific_date_papers_run env target_date w :
  get_specific_date_papers env target_date w =
    (fst (collect (client_results env) target_date),
     {| ticks := ticks w;
        log := log w ++ map Print (snd (collect (client_results env) target_date)) |}).
Proof.
  unfold get_specific_date_papers.
  destruct (collect (client_results env) target_date) as [result out].
  unfold bind. rewrite print_all_run. reflexivity.
Qed.

(** The value of [collect], by the way the loop was left. *)
Lemma collect_value results target_date :
  fst (collect results target_date) =
    match exit (scan results target_date), papers (final (scan results target_date)) with
    | Raised e, [] => Raise e
    | _, ps => Ok ps
    end.
Proof.
  unfold collect.
  destruct (exit (scan results target_date));
    destruct (papers (final (scan results target_date))); reflexivity.
Qed.

(** C1 (as amended).  [get_specific_date_papers] raises exactly when the
    loop was left by an error of the feed while [papers] was still empty,
    whatever the number of lookback extensions made so far; the exception is
    the feed's.  When the feed raises after at least one paper was
    collected the partial list is returned, and when the feed does not raise
    the list is returned, empty or not. *)
Theorem collect_raises_iff_feed_error_and_no_paper env target_date w :
  let r := scan (client_results env) target_date in
  let result := fst (get_specific_date_papers env target_date w) in
  (forall e, result = Raise e <-> exit r = Raised e /\ papers (final r) = []) /\
  (forall e, exit r = Raised e -> papers (final r) <> [] ->
             result = Ok (papers (final r))) /\
  ((forall e, exit r <> Raised e) -> result = Ok (papers (final r))) /\
  (forall e, exit r = Raised e -> feed_end (client_results env) = FeedError e) /\
  (feed_end (client_results env) = StopIteration -> exists ps, result = Ok ps).
Proof.
  intros r result. subst result.
  rewrite get_specific_date_papers_run. cbn [fst]. rewrite collect_value.
  fold r. refine (conj _ (conj _ (conj _ (conj _ _)))).
  - intros e. split.
    + intros H. destruct (exit r); try discriminate.
      destruct (papers (final r)); [|discriminate]. now inversion H.
    + intros [He Hp]. now rewrite He, Hp.
  - intros e He Hp. rewrite He. destruct (papers (final r)); congruence.
  - intros Hno. destruct (exit r) as [| |e]; try reflexivity.
    now destruct (Hno e).
  - intros e He. subst r. unfold scan in He.
    destruct (for_loop_exit target_date (window_end target_date)
                (feed_items (client_results env)) (feed_end (client_results env))
                (initial_state target_date)) as [H|H];
      rewrite H in He; [discriminate|].
    destruct (feed_end (client_results env)); [discriminate | congruence].
  - intros Hstop. subst r. unfold scan.
    destruct (for_loop_exit target_date (window_end target_date)
                (feed_items (client_results env)) (feed_end (client_results env))
                (initial_state target_date)) as [H|H];
      rewrite H; [|rewrite Hstop]; eauto.
Qed.

(** C1, as stated, fails: with the feed down from the first request the
    collector raises although no lookback extension has been made, so the
    retry budget of three is untouched. *)
Lemma collect_raises_with_budget_left :
  fst (get_specific_date_papers
         (Sample.env_of Sample.feed_down Sample.analysis)
         Sample.target Sample.world0) = Raise Sample.timeout /\
  error_retries (final (scan Sample.feed_down Sample.target)) = 0 /\
  error_retries (final (scan Sample.feed_down Sample.target)) < 3.
Proof. vm_compute. repeat split; reflexivity. Qed.

(** C2.  Every paper of the list [get_specific_date_papers] returns was
    published in the window [[start, end)], where [end] is the target day
    plus one day and [start] is the start of the target day moved back by one
    day per lookback extension of the scan (at most three). *)
Theorem collected_papers_in_final_window env target_date w ps :
  fst (get_specific_date_papers env target_date w) = Ok ps ->
  let st := final (scan (client_results env) target_date) in
  Forall (fun p => target_start st <= published p < target_date * DAY + DAY) ps /\
  target_start st = target_date * DAY - error_retries st * DAY /\
  0 <= error_retries st <= 3.
Proof.
  intros Hok st.
  destruct (scan_invariant (client_results env) target_date) as (Hr & Hs & Hp).
  fold st in Hr, Hs, Hp. repeat split; try lia.
  rewrite get_specific_date_papers_run in Hok. cbn [fst] in Hok.
  rewrite collect_value in Hok. fold st in Hok.
  assert (ps = papers st) as ->.
  { destruct (exit (scan (client_results env) target_date));
      destruct (papers st); congruence. }
  exact Hp.
Qed.

Lemma collected_papers_in_final_window_witness :
  let env := Sample.env_of Sample.feed_sparse Sample.analysis in
  let st := final (scan (client_results env) Sample.target) in
  Forall (fun p => target_start st <= published p < Sample.target * DAY + DAY)
         [Sample.p2] /\
  target_start st = Sample.target * DAY - error_retries st * DAY /\
  0 <= error_retries st <= 3.
Proof.
  intros env.
  apply (collected_papers_in_final_window env Sample.target Sample.world0 [Sample.p2]).
  vm_compute. reflexivity.
Defined.

(** C3.  In a call of [get_specific_date_papers] every state of the loop
    has made at most three extensions and has the window start exactly that
    many days before the start of the target day; from a state to the next
    the window start is kept or moves back by exactly one day, the latter
    only while nothing has been collected; so it never moves forward, and it
    moves back at most three times in all.  The last of these states is the
    one the call ends in. *)
Theorem lookback_extension_bounded results target_date :
  let trace :=
    visited target_date (window_end target_date) (feed_items results)
            (initial_state target_date) in
  (forall st, In st trace ->
     0 <= error_retries st <= 3 /\
     target_start st = target_date * DAY - error_retries st * DAY) /\
  (forall i st st',
     nth_error trace i = Some st -> nth_error trace (S i) = Some st' ->
     (target_start st' = target_start st /\ error_retries st' = error_retries st) \/
     (target_start st' = target_start st - DAY /\
      error_retries st' = error_retries st + 1 /\
      papers st = [] /\ papers st' = [])) /\
  (forall i j st st',
     (i <= j)%nat -> nth_error trace i = Some st -> nth_error trace j = Some st' ->
     target_start st' <= target_start st) /\
  0 <= extensions trace <= 3 /\
  extensions trace = error_retries (final (scan results target_date)) /\
  last trace (initial_state target_date) = final (scan results target_date).
Proof.
  intros trace.
  assert (Hadj : forall i st st',
             nth_error trace i = Some st -> nth_error trace (S i) = Some st' ->
             window_kept_or_extended st st').
  { intros i st st'. apply visited_adjacent. }
  assert (Hext : extensions trace =
                 error_retries (final (scan results target_date))).
  { subst trace. unfold scan.
    rewrite (visited_extensions _ _ _ (feed_end results)). cbn. lia. }
  refine (conj _ (conj _ (conj _ (conj _ (conj Hext _))))).
  - intros st Hin.
    pose proof (visited_invariant target_date (window_end target_date)
                  (target_date * DAY) (feed_items results) _
                  (initial_state_invariant target_date)) as Hall.
    rewrite Forall_forall in Hall. destruct (Hall st Hin) as (Hr & Hs & _).
    split; assumption.
  - intros i st st' Hi Hj. exact (Hadj i st st' Hi Hj).
  - intros i j st st' Hij. revert st'.
    induction Hij as [|j Hij IH]; intros st' Hi Hj.
    + rewrite Hi in Hj. inversion Hj. lia.
    + destruct (nth_error trace j) as [mid|] eqn:Hmid.
      * specialize (IH mid Hi eq_refl).
        assert (DAY = 86400000000) by reflexivity.
        destruct (Hadj j mid st' Hmid Hj) as [[Hs _]|[Hs _]]; lia.
      * apply nth_error_None in Hmid.
        assert (nth_error trace (S j) = None) by (apply nth_error_None; lia).
        congruence.
  - rewrite Hext.
    now destruct (scan_invariant results target_date) as (Hr & _).
  - apply visited_last.
Qed.

(** The window start at the end of a scan is not after the one it began with. *)
Lemma for_loop_start_le target_date target_end items fin st :
  target_start (final (for_loop target_date target_end items fin st)) <= target_start st.
Proof.
  revert st. induction items as [|paper rest IH]; intros st.
  - cbn. lia.
  - cbn [for_loop].
    destruct (loop_body_cases target_date target_end st paper)
      as (c & st' & out & E & Hstep).
    rewrite E. assert (DAY = 86400000000) by reflexivity.
    pose proof (step_window _ _ _ _ _ Hstep) as [[Hs _]|[Hs _]];
      destruct c; cbn [final]; try (specialize (IH st')); lia.
Qed.

(** The scan of a feed is the scan of its first records, when the loop is
    not left among them, followed by the scan of the others from the state
    reached. *)
Lemma for_loop_app target_date target_end before rest fin st :
  let reached := for_loop target_date target_end before StopIteration st in
  exit reached = Exhausted ->
  for_loop target_date target_end (before ++ rest) fin st =
    let r := for_loop target_date target_end rest fin (final reached) in
    {| final := final r; exit := exit r; printed := printed reached ++ printed r |}.
Proof.
  revert st. induction before as [|paper before IH]; intros st reached Hexit;
    subst reached.
  - cbn. now destruct (for_loop target_date target_end rest fin st).
  - cbn [app for_loop] in Hexit |- *.
    destruct (loop_body target_date target_end st paper) as [[[|] st'] out];
      cbn [final exit printed] in Hexit |- *; [|discriminate].
    rewrite (IH st' Hexit). cbn [final exit printed]. now rewrite app_assoc.
Qed.

(** C9.  The record that triggers a lookback extension is not collected,
    whichever of the three extensions it triggers: when the loop comes to a
    record published before the start of the current window while nothing
    is collected and fewer than three extensions are made, the loop body
    extends the window and goes on, and the scan continues with the next
    record from the extended state with its empty list.  So the record is
    missing from the result (unless the feed yields it again), also when the
    extended window, and with it the window the scan ends with, contains
    it. *)
Theorem lookback_trigger_is_skipped env target_date w before paper rest :
  feed_items (client_results env) = before ++ paper :: rest ->
  let target_end := window_end target_date in
  let reached :=
    for_loop target_date target_end before StopIteration (initial_state target_date) in
  let st := final reached in
  exit reached = Exhausted ->
  published paper < target_end ->
  published paper < target_start st ->
  papers st = [] ->
  error_retries st < 3 ->
  let extended :=
    {| target_start := target_start st - DAY;
       error_retries := error_retries st + 1;
       papers := [] |} in
  let ended := final (scan (client_results env) target_date) in
  loop_body target_date target_end st paper =
    (Continue, extended, [MsgLookback target_date (error_retries st + 1)]) /\
  ended =
    final (for_loop target_date target_end rest (feed_end (client_results env))
             extended) /\
  (~ In paper rest ->
   ~ In paper (papers ended) /\
   forall ps, fst (get_specific_date_papers env target_date w) = Ok ps ->
              ~ In paper ps) /\
  (target_start st - DAY <= published paper ->
   target_start ended <= published paper < target_end).
Proof.
  intros Hitems target_end reached st Hexit Hend Hold Hempty Hretries extended ended.
  assert (Hbody :
    loop_body target_date target_end st paper =
      (Continue, extended, [MsgLookback target_date (error_retries st + 1)]))
    by now apply loop_body_extend.
  assert (Hended :
    ended =
    final (for_loop target_date target_end rest (feed_end (client_results env))
             extended)).
  { subst ended. unfold scan. rewrite Hitems.
    fold target_end. rewrite (for_loop_app _ _ _ _ _ _ Hexit).
    cbn [final for_loop]. fold reached st. now rewrite Hbody. }
  assert (Hout : ~ In paper rest -> ~ In paper (papers ended)).
  { intros Hrest Hin. rewrite Hended in Hin. apply for_loop_papers in Hin.
    destruct Hin as [[]|Hin]. now apply Hrest. }
  refine (conj Hbody (conj Hended (conj _ _))).
  - intros Hrest. split; [now apply Hout|].
    intros ps Hok. rewrite get_specific_date_papers_run in Hok. cbn [fst] in Hok.
    rewrite collect_value in Hok. fold ended in Hok.
    assert (ps = papers ended) as ->; [|now apply Hout].
    destruct (exit (scan (client_results env) target_date));
      destruct (papers ended); congruence.
  - intros Hin. split; [|assumption]. rewrite Hended.
    pose proof (for_loop_start_le target_date target_end rest
                  (feed_end (client_results env)) extended) as Hle.
    cbn [target_start extended] in Hle. subst extended. cbn [target_start] in Hle.
    lia.
Qed.

(** The trigger of the second extension: the feed yields [p1] (an hour
    before the target day), then [o1] and [o1b] (an hour and two hours before
    the day before).  [o1] sets off the second extension and is missing from
    the result, which holds the older [o1b]. *)
Lemma lookback_trigger_is_skipped_witness :
  let env := Sample.env_of Cases.feed_two_steps Sample.analysis in
  let ended := final (scan Cases.feed_two_steps Sample.target) in
  fst (get_specific_date_papers env Sample.target Sample.world0) = Ok [Cases.o1b] /\
  error_retries ended = 2 /\
  target_start ended <= published Sample.o1 < window_end Sample.target /\
  ~ In Sample.o1 [Cases.o1b].
Proof.
  intros env ended.
  assert (Hrun : fst (get_specific_date_papers env Sample.target Sample.world0)
                 = Ok [Cases.o1b]) by (vm_compute; reflexivity).
  destruct (lookback_trigger_is_skipped env Sample.target Sample.world0
              [Sample.p1] Sample.o1 [Cases.o1b])
    as (_ & _ & Hout & Hwin).
  - reflexivity.
  - reflexivity.
  - vm_compute. reflexivity.
  - vm_compute. reflexivity.
  - reflexivity.
  - vm_compute. reflexivity.
  - refine (conj Hrun (conj _ (conj _ _))).
    + vm_compute. reflexivity.
    + apply Hwin. vm_compute. discriminate.
    + apply (proj2 (Hout ltac:(intros [H|[]]; discriminate H)) _ Hrun).
Defined.

(** ** The sort *)

Section SortFacts.
Context {A K : Type}.
Variable key : A -> K.
Variable lt : K -> K -> bool.

(** [<] on the keys is a strict weak order: it is asymmetric, and "not
    smaller" is transitive. *)
Hypothesis lt_asym : forall a b, lt a b = true -> lt b a = false.
Hypothesis ge_trans : forall a b c, lt a b = false -> lt b c = false -> lt a c = false.

Lemma insert_sorted_perm x l : Permutation (insert_sorted key lt x l) (x :: l).
Proof.
  induction l as [|y l IH]; cbn [insert_sorted]; [reflexivity|].
  destruct (lt (key y) (key x)); [|reflexivity].
  rewrite IH. apply perm_swap.
Qed.

Lemma stable_sort_perm l : Permutation (stable_sort key lt l) l.
Proof.
  induction l as [|x l IH]; cbn [stable_sort fold_right]; [reflexivity|].
  fold (stable_sort key lt l). rewrite insert_sorted_perm. now constructor.
Qed.

Lemma list_sort_perm reverse l : Permutation (list_sort key lt reverse l) l.
Proof.
  destruct reverse; cbn [list_sort]; [|apply stable_sort_perm].
  rewrite <- Permutation_rev, stable_sort_perm. symmetry. apply Permutation_rev.
Qed.

(** Ascending: no item has a key smaller than the key of an earlier one. *)
Lemma insert_sorted_sorted x l :
  StronglySorted (fun a b => lt (key b) (key a) = false) l ->
  StronglySorted (fun a b => lt (key b) (key a) = false) (insert_sorted key lt x l).
Proof.
  induction 1 as [|y l Hl IH Hy]; cbn [insert_sorted].
  - repeat constructor.
  - destruct (lt (key y) (key x)) eqn:E.
    + constructor; [assumption|].
      rewrite Forall_forall in Hy |- *. intros b Hb.
      apply (Permutation_in _ (insert_sorted_perm x l)) in Hb.
      destruct Hb as [<-|Hb]; [now apply lt_asym | now apply Hy].
    + constructor; [now constructor|].
      constructor; [assumption|].
      rewrite Forall_forall in Hy |- *. intros b Hb.
      apply (ge_trans _ (key y)); [now apply Hy | assumption].
Qed.

Lemma stable_sort_sorted l :
  StronglySorted (fun a b => lt (key b) (key a) = false) (stable_sort key lt l).
Proof.
  induction l as [|x l IH]; cbn [stable_sort fold_right]; [constructor|].
  now apply insert_sorted_sorted.
Qed.

(** Stability: the items with a given key keep their order. *)
Lemma insert_sorted_filter v x l :
  filter (same_key key lt v) (insert_sorted key lt x l) =
  if same_key key lt v x then x :: filter (same_key key lt v) l else filter (same_key key lt v) l.
Proof.
  induction l as [|y l IH]; cbn [insert_sorted].
  - reflexivity.
  - destruct (lt (key y) (key x)) eqn:E; [|reflexivity].
    cbn [filter]. rewrite IH.
    destruct (same_key key lt v x) eqn:Ex; [|reflexivity].
    assert (Ey : same_key key lt v y = false); [|now rewrite Ey].
    unfold same_key in *.
    apply andb_true_iff in Ex. destruct Ex as [_ Hvx].
    apply negb_true_iff in Hvx.
    destruct (lt (key y) v) eqn:Hyv; [reflexivity|].
    rewrite (ge_trans _ _ _ Hyv Hvx) in E. discriminate.
Qed.

Lemma stable_sort_filter v l :
  filter (same_key key lt v) (stable_sort key lt l) = filter (same_key key lt v) l.
Proof.
  induction l as [|x l IH]; cbn [stable_sort fold_right]; [reflexivity|].
  fold (stable_sort key lt l). rewrite insert_sorted_filter, IH. reflexivity.
Qed.

Lemma list_sort_filter reverse v l :
  filter (same_key key lt v) (list_sort key lt reverse l) = filter (same_key key lt v) l.
Proof.
  destruct reverse; cbn [list_sort]; [|apply stable_sort_filter].
  now rewrite filter_rev, stable_sort_filter, filter_rev, rev_involutive.
Qed.

Lemma StronglySorted_snoc (R : A -> A -> Prop) l a :
  StronglySorted R l -> Forall (fun b => R b a) l -> StronglySorted R (l ++ [a]).
Proof.
  induction 1 as [|x l Hl IH Hx]; intros Hall; cbn [app].
  - repeat constructor.
  - inversion Hall; subst. constructor; [now apply IH|].
    apply Forall_app. split; [assumption | now repeat constructor].
Qed.

Lemma StronglySorted_rev (R : A -> A -> Prop) l :
  StronglySorted R l -> StronglySorted (fun a b => R b a) (rev l).
Proof.
  induction 1 as [|x l Hl IH Hx]; cbn [rev]; [constructor|].
  apply StronglySorted_snoc; [assumption | now apply Forall_rev].
Qed.

(** Descending, with [reverse=True]: no item has a key greater than the
    key of an earlier one. *)
Lemma list_sort_reverse_sorted l :
  StronglySorted (fun a b => lt (key a) (key b) = false) (list_sort key lt true l).
Proof.
  cbn [list_sort].
  apply (StronglySorted_rev (fun a b => lt (key b) (key a) = false)).
  apply stable_sort_sorted.
Qed.

Lemma StronglySorted_nth (R : A -> A -> Prop) l :
  StronglySorted R l ->
  forall i j a b, (i < j)%nat ->
    nth_error l i = Some a -> nth_error l j = Some b -> R a b.
Proof.
  induction 1 as [|x l Hl IH Hx]; intros i j a b Hij Ha Hb.
  - destruct i; discriminate.
  - destruct j as [|j]; [lia|]. cbn in Hb.
    destruct i as [|i]; cbn in Ha.
    + inversion Ha; subst. rewrite Forall_forall in Hx.
      apply Hx. eapply nth_error_In; eassumption.
    + apply (IH i j); (assumption || lia).
Qed.

Lemma StronglySorted_firstn (R : A -> A -> Prop) n l :
  StronglySorted R l -> StronglySorted R (firstn n l).
Proof.
  intros H. revert n. induction H as [|x l Hl IH Hx]; intros [|n]; cbn;
    try constructor.
  - apply IH.
  - rewrite Forall_forall in Hx |- *. intros b Hb.
    apply Hx. rewrite <- (firstn_skipn n l). apply in_or_app. now left.
Qed.
End SortFacts.

(** [<] on the scores. *)
Lemma Qlt_bool_true x y : Qlt_bool x y = true <-> (x < y)%Q.
Proof.
  unfold Qlt_bool. rewrite Qlt_alt.
  destruct (x ?= y)%Q; split; congruence.
Qed.

Lemma Qlt_bool_false x y : Qlt_bool x y = false <-> (y <= x)%Q.
Proof.
  split.
  - intros H. apply Qnot_lt_le. intros Hlt.
    apply Qlt_bool_true in Hlt. congruence.
  - intros H. destruct (Qlt_bool x y) eqn:E; [|reflexivity].
    apply Qlt_bool_true in E. now apply Qle_not_lt in H.
Qed.

Lemma Qlt_bool_asym x y : Qlt_bool x y = true -> Qlt_bool y x = false.
Proof.
  rewrite Qlt_bool_true, Qlt_bool_false. apply Qlt_le_weak.
Qed.

Lemma Qlt_bool_ge_trans x y z :
  Qlt_bool x y = false -> Qlt_bool y z = false -> Qlt_bool x z = false.
Proof.
  rewrite !Qlt_bool_false. intros Hyx Hzy. now apply (Qle_trans _ y).
Qed.

Lemma same_key_Qeq_bool (v : Q) (r : Scored.t) :
  same_key Scored.score Qlt_bool v r = Qeq_bool (Scored.score r) v.
Proof.
  unfold same_key.
  destruct (Qeq_bool (Scored.score r) v) eqn:E.
  - apply Qeq_bool_iff in E.
    assert (H1 : Qlt_bool (Scored.score r) v = false)
      by (apply Qlt_bool_false; rewrite E; apply Qle_refl).
    assert (H2 : Qlt_bool v (Scored.score r) = false)
      by (apply Qlt_bool_false; rewrite E; apply Qle_refl).
    now rewrite H1, H2.
  - destruct (Qlt_bool (Scored.score r) v) eqn:H1; [reflexivity|].
    destruct (Qlt_bool v (Scored.score r)) eqn:H2; [reflexivity|].
    apply Qlt_bool_false in H1, H2.
    assert (Heq : (Scored.score r == v)%Q) by now apply Qle_antisym.
    apply Qeq_bool_iff in Heq. congruence.
Qed.

(** ** The ranker *)

Lemma enumerate_rank_length i l : List.length (enumerate_rank i l) = List.length l.
Proof.
  revert i. induction l as [|r l IH]; intros i; cbn; [reflexivity|].
  now rewrite IH.
Qed.

Lemma enumerate_rank_nth i l n :
  nth_error (enumerate_rank i l) n =
  option_map (Scored.set_rank (i + Z.of_nat n)) (nth_error l n).
Proof.
  revert i n. induction l as [|r l IH]; intros i [|n]; cbn [enumerate_rank nth_error option_map];
    try reflexivity.
  - now rewrite Z.add_0_r.
  - rewrite IH. now replace (i + 1 + Z.of_nat n) with (i + Z.of_nat (S n)) by lia.
Qed.

Lemma enumerate_rank_ranks n l :
  map Scored.rank (enumerate_rank (Z.of_nat n) l) = map Z.of_nat (seq n (List.length l)).
Proof.
  revert n. induction l as [|r l IH]; intros n; cbn; [reflexivity|].
  f_equal. replace (Z.of_nat n + 1) with (Z.of_nat (S n)) by lia. apply IH.
Qed.

(** Taking the ranks off again gives the list that was enumerated, the
    ranks of [paper_scores] being 0. *)
Lemma enumerate_rank_unrank i l :
  Forall (fun r => Scored.rank r = 0) l ->
  map (Scored.set_rank 0) (enumerate_rank i l) = l.
Proof.
  intros H. revert i. induction H as [|r l Hr _ IH]; intros i; cbn; [reflexivity|].
  rewrite IH. f_equal. destruct r. cbn in Hr. subst. reflexivity.
Qed.

Lemma sort_by_score_length l : List.length (sort_by_score l) = List.length l.
Proof. apply Permutation_length, list_sort_perm. Qed.

Lemma sort_by_score_sorted l :
  StronglySorted (fun a b => (Scored.score b <= Scored.score a)%Q) (sort_by_score l).
Proof.
  pose proof (list_sort_reverse_sorted Scored.score Qlt_bool
                Qlt_bool_asym Qlt_bool_ge_trans l) as H.
  unfold sort_by_score.
  induction H as [|x s Hs IH Hx]; constructor; [assumption|].
  rewrite Forall_forall in Hx |- *. intros b Hb.
  apply Qlt_bool_false. now apply Hx.
Qed.

Lemma paper_scores_rank0 f papers :
  Forall (fun r => Scored.rank r = 0) (paper_scores f papers).
Proof.
  unfold paper_scores. rewrite Forall_map. apply Forall_forall. reflexivity.
Qed.

Lemma top10_candidates_rank0 f papers :
  Forall (fun r => Scored.rank r = 0)
         (firstn 10 (sort_by_score (paper_scores f papers))).
Proof.
  apply Forall_forall. intros r Hr.
  pose proof (paper_scores_rank0 f papers) as H. rewrite Forall_forall in H.
  apply H.
  apply (Permutation_in _ (list_sort_perm Scored.score Qlt_bool true _)).
  rewrite <- (firstn_skipn 10 (sort_by_score _)). apply in_or_app. now left.
Qed.

Lemma top10_of_length f papers :
  List.length (top10_of f papers) = Nat.min 10 (List.length papers).
Proof.
  unfold top10_of.
  rewrite enumerate_rank_length, length_firstn, sort_by_score_length.
  unfold paper_scores. now rewrite length_map.
Qed.

(** What [save_top10] returns and does: the value is [top10_of], the clock
    is read once, and the log grows by the table, the directory, the CSV
    file and the closing line. *)
Lemma save_top10_run env papers target_date w :
  let top10 := top10_of (analyzer_analyze_paper env) papers in
  let csv_file := csv_path (clock env (ticks w)) in
  save_top10 env papers target_date w =
    (Ok top10,
     {| ticks := S (ticks w);
        log := log w ++
               ([Print (MsgTop10Header target_date); Print MsgTop10Columns;
                 Print MsgTop10Rule] ++ map Print (map row_message top10)) ++
               [Makedirs "data/daily_top10";
                ToCsv csv_file (pd_DataFrame (map Scored.as_dict top10));
                Print (MsgCsvSaved csv_file)] |}).
Proof.
  intros top10 csv_file. unfold save_top10. fold top10.
  unfold bind, print, emit, datetime_now_utc, ret. cbn [ticks log].
  rewrite print_all_run. cbn [ticks log]. fold csv_file.
  do 2 f_equal. rewrite <- !app_assoc. reflexivity.
Qed.

Lemma StronglySorted_app_inv {A : Type} (R : A -> A -> Prop) l1 l2 :
  StronglySorted R (l1 ++ l2) ->
  forall a b, In a l1 -> In b l2 -> R a b.
Proof.
  induction l1 as [|x l1 IH]; intros Hs a b Ha Hb; [destruct Ha|].
  cbn in Hs. inversion Hs as [|? ? Hs' Hx]; subst.
  destruct Ha as [<-|Ha].
  - rewrite Forall_forall in Hx. apply Hx. apply in_or_app. now right.
  - now apply IH.
Qed.

Lemma StronglySorted_impl {A : Type} (R R' : A -> A -> Prop) l :
  (forall a b, R a b -> R' a b) -> StronglySorted R l -> StronglySorted R' l.
Proof.
  intros Himpl. induction 1 as [|x l Hl IH Hx]; constructor; [assumption|].
  rewrite Forall_forall in Hx |- *. intros b Hb. now apply Himpl, Hx.
Qed.

(** Sorting the items built for the papers is sorting the papers by the
    score the scorer gives them. *)
Lemma insert_sorted_map {A B K : Type} (g : A -> B) (key : B -> K) lt x l :
  insert_sorted key lt (g x) (map g l) =
  map g (insert_sorted (fun a => key (g a)) lt x l).
Proof.
  induction l as [|y l IH]; cbn [map insert_sorted]; [reflexivity|].
  destruct (lt (key (g y)) (key (g x))); cbn [map]; [now rewrite IH | reflexivity].
Qed.

Lemma list_sort_map {A B K : Type} (g : A -> B) (key : B -> K) lt reverse l :
  list_sort key lt reverse (map g l) =
  map g (list_sort (fun a => key (g a)) lt reverse l).
Proof.
  assert (Hsort : forall l', stable_sort key lt (map g l') =
                             map g (stable_sort (fun a => key (g a)) lt l')).
  { induction l' as [|x l' IH]; cbn [map stable_sort fold_right]; [reflexivity|].
    fold (stable_sort key lt (map g l')).
    fold (stable_sort (fun a => key (g a)) lt l').
    now rewrite IH, insert_sorted_map. }
  destruct reverse; cbn [list_sort]; [|apply Hsort].
  now rewrite <- map_rev, Hsort, map_rev.
Qed.

Lemma sort_by_score_papers f papers :
  sort_by_score (paper_scores f papers) =
  map (fun paper => scored (f paper) paper) (list_sort f Qlt_bool true papers).
Proof. unfold sort_by_score, paper_scores. now rewrite list_sort_map. Qed.

Lemma enumerate_rank_map {B : Type} (field : Scored.t -> B) i l :
  (forall k r, field (Scored.set_rank k r) = field r) ->
  map field (enumerate_rank i l) = map field l.
Proof.
  intros Hfield. revert i. induction l as [|r l IH]; intros i; cbn; [reflexivity|].
  now rewrite Hfield, IH.
Qed.

(** C4.  [save_top10] always returns, and the list it returns has at most
    10 items, scores that do not increase along the list, and the ranks
    1, ..., k in this order, where k is the smaller of 10 and the number of
    papers; for no paper it is empty.  The scores are those the scorer gives:
    the items are, in this order, the items built for papers of the input,
    each with the score of its paper, and a paper of the input that is left
    out has no higher score than one that is kept. *)
Theorem save_top10_ranks env papers target_date w :
  exists top10,
    fst (save_top10 env papers target_date w) = Ok top10 /\
    (List.length top10 <= 10)%nat /\
    (forall i j a b,
       (i < j)%nat -> nth_error top10 i = Some a -> nth_error top10 j = Some b ->
       (Scored.score b <= Scored.score a)%Q) /\
    map Scored.rank top10 =
      map Z.of_nat (seq 1 (Nat.min 10 (List.length papers))) /\
    (papers = [] -> top10 = []) /\
    exists kept dropped,
      Permutation (kept ++ dropped) papers /\
      map Scored.score top10 = map (analyzer_analyze_paper env) kept /\
      map Scored.url top10 = map entry_id kept /\
      map (Scored.set_rank 0) top10 =
        map (fun paper => scored (analyzer_analyze_paper env paper) paper) kept /\
      (forall i j a b,
         (i < j)%nat -> nth_error kept i = Some a -> nth_error kept j = Some b ->
         (analyzer_analyze_paper env b <= analyzer_analyze_paper env a)%Q) /\
      (forall a b,
         In a kept -> In b dropped ->
         (analyzer_analyze_paper env b <= analyzer_analyze_paper env a)%Q).
Proof.
  exists (top10_of (analyzer_analyze_paper env) papers).
  rewrite save_top10_run. cbn [fst].
  refine (conj eq_refl (conj _ (conj _ (conj _ (conj _ _))))).
  - rewrite top10_of_length. apply Nat.le_min_l.
  - intros i j a b Hij Ha Hb. unfold top10_of in Ha, Hb.
    rewrite enumerate_rank_nth in Ha, Hb.
    destruct (nth_error _ i) as [a0|] eqn:Ea; [|discriminate].
    destruct (nth_error _ j) as [b0|] eqn:Eb; [|discriminate].
    cbn in Ha, Hb. inversion Ha; inversion Hb; subst. cbn [Scored.set_rank Scored.score].
    eapply (StronglySorted_nth _ _
              (StronglySorted_firstn _ 10 _ (sort_by_score_sorted _)));
      eassumption.
  - unfold top10_of. change 1 with (Z.of_nat 1).
    rewrite enumerate_rank_ranks, length_firstn, sort_by_score_length.
    unfold paper_scores. now rewrite length_map.
  - intros ->. reflexivity.
  - set (f := analyzer_analyze_paper env).
    set (sorted := list_sort f Qlt_bool true papers).
    assert (Htop : top10_of f papers =
                   enumerate_rank 1
                     (map (fun paper => scored (f paper) paper) (firstn 10 sorted))).
    { unfold top10_of. now rewrite sort_by_score_papers, firstn_map. }
    assert (Hsorted : StronglySorted (fun a b => (f b <= f a)%Q) sorted).
    { apply (StronglySorted_impl (fun a b => Qlt_bool (f a) (f b) = false)).
      - intros a b. apply Qlt_bool_false.
      - apply (list_sort_reverse_sorted f Qlt_bool
                 Qlt_bool_asym Qlt_bool_ge_trans). }
    exists (firstn 10 sorted), (skipn 10 sorted).
    refine (conj _ (conj _ (conj _ (conj _ (conj _ _))))).
    + rewrite firstn_skipn. apply list_sort_perm.
    + rewrite Htop, (enumerate_rank_map Scored.score) by reflexivity.
      now rewrite map_map.
    + rewrite Htop, (enumerate_rank_map Scored.url) by reflexivity.
      now rewrite map_map.
    + rewrite Htop. apply enumerate_rank_unrank.
      rewrite Forall_map. apply Forall_forall. reflexivity.
    + apply (StronglySorted_nth _ _ (StronglySorted_firstn _ 10 _ Hsorted)).
    + rewrite <- (firstn_skipn 10 sorted) in Hsorted.
      intros a b. apply (StronglySorted_app_inv _ _ _ Hsorted).
Qed.

(** The papers whose score compares equal to [v]. *)
Lemma same_score_filter v l :
  filter (fun r => Qeq_bool (Scored.score r) v) (sort_by_score l) =
  filter (fun r => Qeq_bool (Scored.score r) v) l.
Proof.
  rewrite <- !(filter_ext _ _ (same_key_Qeq_bool v)).
  apply (list_sort_filter Scored.score Qlt_bool Qlt_bool_ge_trans).
Qed.

(** C5.  The sort by score is stable: for every score, the papers of that
    score are in the sorted list in the order they have in the input, and
    the top 10 (their ranks apart) hold the first of them in that order. *)
Theorem ranking_sort_is_stable env papers v :
  let same_score := fun r => Qeq_bool (Scored.score r) v in
  let unsorted := paper_scores (analyzer_analyze_paper env) papers in
  let top10 := top10_of (analyzer_analyze_paper env) papers in
  filter same_score (sort_by_score unsorted) = filter same_score unsorted /\
  exists cut,
    filter same_score unsorted =
    filter same_score (map (Scored.set_rank 0) top10) ++ cut.
Proof.
  intros same_score unsorted top10. split; [apply same_score_filter|].
  subst top10. unfold top10_of. fold unsorted.
  rewrite enumerate_rank_unrank by apply top10_candidates_rank0.
  exists (filter same_score (skipn 10 (sort_by_score unsorted))).
  rewrite <- filter_app, firstn_skipn. symmetry. apply same_score_filter.
Qed.

Lemma top10_of_ext f g papers :
  (forall p, In p papers -> f p = g p) -> top10_of f papers = top10_of g papers.
Proof.
  intros H. unfold top10_of, paper_scores. do 3 f_equal.
  apply map_ext_in. intros p Hp. now rewrite (H p Hp).
Qed.

(** C8.  The list [save_top10] returns depends on the papers and on the
    scores the scorer gives them only: two calls on the same list with
    scorers that agree on its papers return the same list, whatever the
    target date, the collaborators, the clock and the log; so does a second
    call made in the world the first one left. *)
Theorem save_top10_deterministic env1 env2 papers date1 date2 w1 w2 :
  (forall p, In p papers ->
             analyzer_analyze_paper env1 p = analyzer_analyze_paper env2 p) ->
  fst (save_top10 env1 papers date1 w1) = fst (save_top10 env2 papers date2 w2) /\
  fst (save_top10 env1 papers date1 (snd (save_top10 env1 papers date1 w1))) =
    fst (save_top10 env1 papers date1 w1) /\
  exists top10, fst (save_top10 env1 papers date1 w1) = Ok top10.
Proof.
  intros Hscorer. rewrite !save_top10_run. cbn [fst].
  rewrite (top10_of_ext _ _ _ Hscorer). eauto.
Qed.

Lemma save_top10_deterministic_witness :
  let env1 := Sample.env_of Sample.feed_day Sample.analysis in
  let env2 := Sample.env_of Sample.feed_down Sample.analysis_failing in
  let papers := [Sample.q1; Sample.q2; Sample.p1] in
  let w2 := {| ticks := 7; log := [Print MsgAnalyzing] |} in
  fst (save_top10 env1 papers Sample.target Sample.world0) =
    fst (save_top10 env2 papers (Sample.target + 1) w2) /\
  fst (save_top10 env1 papers Sample.target
         (snd (save_top10 env1 papers Sample.target Sample.world0))) =
    fst (save_top10 env1 papers Sample.target Sample.world0) /\
  exists top10, fst (save_top10 env1 papers Sample.target Sample.world0) = Ok top10.
Proof.
  intros env1 env2 papers w2.
  apply (save_top10_deterministic env1 env2 papers Sample.target (Sample.target + 1)
           Sample.world0 w2).
  intros p _. reflexivity.
Defined.

Lemma pd_DataFrame_columns_step l :
  fold_left
    (fun cols d => cols ++ filter (fun k => negb (mem_string k cols)) (keys d))
    (map Scored.as_dict l) top10_columns = top10_columns.
Proof.
  induction l as [|r l IH]; [reflexivity|].
  cbn [map fold_left]. exact IH.
Qed.

Lemma pd_DataFrame_columns l :
  columns (pd_DataFrame (map Scored.as_dict l)) =
  match l with [] => [] | _ :: _ => top10_columns end.
Proof.
  destruct l as [|r l]; [reflexivity|].
  unfold pd_DataFrame. cbn [columns map fold_left].
  exact (pd_DataFrame_columns_step l).
Qed.

Lemma pd_DataFrame_rows l :
  rows (pd_DataFrame (map Scored.as_dict l)) = map top10_row l.
Proof.
  pose proof (pd_DataFrame_columns l) as Hc.
  unfold pd_DataFrame in *. cbn [columns rows] in *.
  destruct l as [|r0 l0]; [reflexivity|].
  rewrite Hc, map_map. apply map_ext. intros r. reflexivity.
Qed.

Lemma strftime_Y_m_d_dashed t : dashed_date (strftime_Y_m_d t).
Proof.
  unfold strftime_Y_m_d. destruct (civil_from_days (day_of t)) as [[y m] d].
  unfold dashed_date, fmt4, fmt2, digit. cbn. auto.
Qed.

(** Every item of the top 10 is the item built for one of the papers, with
    its rank set. *)
Lemma top10_of_from_papers f papers r :
  In r (top10_of f papers) ->
  exists paper, In paper papers /\ Scored.set_rank 0 r = scored (f paper) paper.
Proof.
  intros Hr.
  assert (Hin : In (Scored.set_rank 0 r)
                   (firstn 10 (sort_by_score (paper_scores f papers)))).
  { rewrite <- (enumerate_rank_unrank 1 _ (top10_candidates_rank0 f papers)).
    apply in_map. exact Hr. }
  assert (Hps : In (Scored.set_rank 0 r) (paper_scores f papers)).
  { apply (Permutation_in _ (list_sort_perm Scored.score Qlt_bool true _)).
    rewrite <- (firstn_skipn 10 (sort_by_score _)). apply in_or_app. now left. }
  unfold paper_scores in Hps. apply in_map_iff in Hps.
  destruct Hps as (paper & Heq & Hp). exists paper. split; [assumption | now symmetry].
Qed.

(** C6 (as amended).  [save_top10] writes one CSV file, at the path made of
    the UTC date of the clock as [save_top10] reads it, then, and of nothing
    else: the target date has no part in it.  When there is at least one
    paper its columns are, in this order, rank, title, url, score, authors,
    categories, published, updated, abstract, with one row per item of the
    top 10, where authors is the number of authors of the paper, categories
    its categories joined by a comma and a space, and published and updated
    its two dates as YYYY-MM-DD.  With no paper the frame written has no
    column and no row. *)
Theorem csv_keyed_by_run_date env papers target_date w :
  let top10 := top10_of (analyzer_analyze_paper env) papers in
  let now := clock env (ticks w) in
  let df := pd_DataFrame (map Scored.as_dict top10) in
  (exists before,
     log (snd (save_top10 env papers target_date w)) =
       log w ++ before ++
       [ToCsv (csv_path now) df; Print (MsgCsvSaved (csv_path now))] /\
     Forall (fun ev => match ev with ToCsv _ _ => False | _ => True end) before) /\
  csv_path now = ("data/daily_top10/top10_" ++ strftime_Ymd now ++ ".csv")%string /\
  columns df = match papers with [] => [] | _ :: _ => top10_columns end /\
  rows df = map top10_row top10 /\
  (forall r, In r top10 ->
     exists paper,
       In paper papers /\
       Scored.title r = replace_newlines (title paper) /\
       Scored.url r = entry_id paper /\
       Scored.score r = analyzer_analyze_paper env paper /\
       Scored.authors r = Z.of_nat (List.length (authors paper)) /\
       Scored.categories r = String.concat ", " (categories paper) /\
       Scored.published r = strftime_Y_m_d (published paper) /\
       Scored.updated r = strftime_Y_m_d (updated paper) /\
       Scored.abstract r = replace_newlines (summary paper) /\
       dashed_date (Scored.published r) /\ dashed_date (Scored.updated r)).
Proof.
  intros top10 now df.
  refine (conj _ (conj eq_refl (conj _ (conj _ _)))).
  - rewrite save_top10_run. cbn [snd log]. fold top10 now df.
    exists ([Print (MsgTop10Header target_date); Print MsgTop10Columns;
             Print MsgTop10Rule] ++ map Print (map row_message top10) ++
            [Makedirs "data/daily_top10"]).
    split.
    + rewrite <- !app_assoc. reflexivity.
    + repeat (apply Forall_cons; [exact I|]).
      apply Forall_app. split; [|repeat constructor].
      apply Forall_forall. intros ev Hev. apply in_map_iff in Hev.
      destruct Hev as (m & <- & _). exact I.
  - subst df. rewrite pd_DataFrame_columns.
    pose proof (top10_of_length (analyzer_analyze_paper env) papers) as Hlen.
    fold top10 in Hlen.
    destruct papers; destruct top10; try reflexivity; discriminate.
  - apply pd_DataFrame_rows.
  - intros r Hr.
    destruct (top10_of_from_papers _ _ _ Hr) as (paper & Hp & Heq).
    exists paper. split; [assumption|].
    assert (Hfields : forall {B} (field : Scored.t -> B),
               (forall i x, field (Scored.set_rank i x) = field x) ->
               field r = field (scored (analyzer_analyze_paper env paper) paper)).
    { intros B field Hfield. rewrite <- Heq. symmetry. apply Hfield. }
    rewrite (Hfields _ Scored.title), (Hfields _ Scored.url),
      (Hfields _ Scored.score), (Hfields _ Scored.authors),
      (Hfields _ Scored.categories), (Hfields _ Scored.published),
      (Hfields _ Scored.updated), (Hfields _ Scored.abstract) by reflexivity.
    cbn [scored Scored.title Scored.url Scored.score Scored.authors
         Scored.categories Scored.published Scored.updated Scored.abstract].
    repeat (split; [reflexivity|]).
    split; apply strftime_Y_m_d_dashed.
Qed.

(** C6, as stated, fails for a day with no paper: the frame written has no
    column at all.  (The file of this run of 2024-03-01, for the target date
    2024-02-29, is named after the former.) *)
Lemma csv_of_no_paper_has_no_column :
  log (snd (save_top10 (Sample.env_of Sample.feed_down Sample.analysis) []
              Sample.target Sample.world0)) =
  [Print (MsgTop10Header Sample.target); Print MsgTop10Columns; Print MsgTop10Rule;
   Makedirs "data/daily_top10";
   ToCsv "data/daily_top10/top10_20240301.csv" {| columns := []; rows := [] |};
   Print (MsgCsvSaved "data/daily_top10/top10_20240301.csv")] /\
  strftime_Ymd (Sample.target * DAY) = "20240229"%string.
Proof. vm_compute. split; reflexivity. Qed.

(** ** The reporter and the daily run *)

(** The loop over the top 10 changes the world by what it prints only. *)
Lemma analyze_each_world env l acc w :
  exists out,
    snd (analyze_each env l acc w) =
      {| ticks := ticks w; log := log w ++ map Print out |}.
Proof.
  revert acc w. induction l as [|paper rest IH]; intros acc w.
  - exists []. cbn. rewrite app_nil_r. now destruct w.
  - cbn [analyze_each]. unfold bind, print, emit, call. cbn [ticks log].
    destruct (paper_analyzer_analyze_paper env paper) as [result|e].
    + match goal with |- context [analyze_each env rest ?a ?v] =>
        destruct (IH a v) as [out Hout] end.
      exists (MsgAnalysisStart (Scored.title paper) ::
              MsgAnalysisDone (Scored.title paper) :: out).
      rewrite Hout. cbn [ticks log map]. f_equal.
      rewrite <- !app_assoc. reflexivity.
    + exists [MsgAnalysisStart (Scored.title paper)]. reflexivity.
Qed.

(** When the analysis of one of the papers raises, the loop raises, having
    printed only: the exception is that of the first paper whose analysis
    fails. *)
Lemma analyze_each_raises env l acc w :
  Exists (fun paper => exists e, paper_analyzer_analyze_paper env paper = Raise e) l ->
  exists e paper out,
    In paper l /\ paper_analyzer_analyze_paper env paper = Raise e /\
    analyze_each env l acc w =
      (Raise e, {| ticks := ticks w; log := log w ++ map Print out |}).
Proof.
  revert acc w. induction l as [|paper rest IH]; intros acc w Hex.
  - inversion Hex.
  - cbn [analyze_each]. unfold bind, print, emit, call. cbn [ticks log].
    destruct (paper_analyzer_analyze_paper env paper) as [result|e] eqn:E.
    + assert (Hrest : Exists (fun paper => exists e,
                          paper_analyzer_analyze_paper env paper = Raise e) rest).
      { inversion Hex as [? ? [e He]|]; subst; [congruence | assumption]. }
      match goal with |- context [analyze_each env rest ?a ?v] =>
        destruct (IH a v Hrest) as (e & p & out & Hp & He & Hrun) end.
      exists e, p,
        (MsgAnalysisStart (Scored.title paper) ::
         MsgAnalysisDone (Scored.title paper) :: out).
      split; [now right|]. split; [assumption|].
      rewrite Hrun. cbn [ticks log map]. do 2 f_equal.
      rewrite <- !app_assoc. reflexivity.
    + exists e, paper, [MsgAnalysisStart (Scored.title paper)].
      split; [now left|]. split; [assumption | reflexivity].
Qed.

Lemma no_report_event_print out :
  Forall (fun ev => is_report_event ev = false) (map Print out).
Proof.
  apply Forall_forall. intros ev Hev. apply in_map_iff in Hev.
  now destruct Hev as (m & <- & _).
Qed.


Lemma bind_run {A B : Type} (c : M A) (k : A -> M B) w :
  bind c k w =
  match c w with
  | (Ok a, w') => k a w'
  | (Raise e, w') => (Raise e, w')
  end.
Proof. reflexivity. Qed.

Lemma emit_run ev w :
  emit ev w = (Ok tt, {| ticks := ticks w; log := log w ++ [ev] |}).
Proof. reflexivity. Qed.

(** Runs the [print] or [emit] a computation starts with. *)
Ltac run_emit :=
  rewrite bind_run; unfold print; rewrite emit_run; cbn [ticks log].

Lemma events_before_analysis_no_report env papers target_date w :
  Forall (fun ev => is_report_event ev = false)
         (events_before_analysis env papers target_date w).
Proof.
  unfold events_before_analysis.
  repeat (apply Forall_cons; [reflexivity|]).
  apply Forall_app. split; [apply no_report_event_print|].
  repeat (apply Forall_cons; [reflexivity|]). constructor.
Qed.

Lemma analyze_and_generate_report_raises env papers target_date w :
  Exists (fun paper => exists e, paper_analyzer_analyze_paper env paper = Raise e)
         (top10_of (analyzer_analyze_paper env) papers) ->
  exists e paper out,
    In paper (top10_of (analyzer_analyze_paper env) papers) /\
    paper_analyzer_analyze_paper env paper = Raise e /\
    analyze_and_generate_report env papers target_date w =
      (Raise e,
       {| ticks := S (ticks w);
          log := log w ++ events_before_analysis env papers target_date w ++
                 map Print out |}).
Proof.
  intros Hfails.
  unfold analyze_and_generate_report. do 3 run_emit.
  rewrite bind_run, save_top10_run. cbn [ticks log].
  rewrite bind_run.
  match goal with |- context [analyze_each env ?l [] ?v] =>
    destruct (analyze_each_raises env l [] v Hfails)
      as (e & paper & out & Hp & He & Hrun) end.
  exists e, paper, out. split; [assumption|]. split; [assumption|].
  rewrite Hrun. cbn [ticks log]. do 2 f_equal.
  unfold events_before_analysis. rewrite <- !app_assoc. reflexivity.
Qed.

(** The run, once the list is collected: the report is made, and an
    exception of it is printed. *)
Lemma run_daily_top10_collected env w papers :
  fst (collect (client_results env) (run_target_date env w)) = Ok papers ->
  let target_date := run_target_date env w in
  let events :=
    [Print (MsgFetching target_date)] ++
    map Print (snd (collect (client_results env) target_date)) ++
    [Print (MsgFetched (List.length papers))] in
  run_daily_top10 env w =
    match analyze_and_generate_report env papers target_date
            {| ticks := S (ticks w); log := log w ++ events |} with
    | (Ok _, w') => (Ok tt, w')
    | (Raise e, w') =>
        (Ok tt, {| ticks := ticks w'; log := log w' ++ [Print (MsgRunError e)] |})
    end.
Proof.
  intros Hcollect target_date events.
  unfold run_daily_top10, try_except.
  rewrite bind_run. unfold datetime_now_utc at 1. cbn [ticks log].
  fold (run_target_date env w). fold target_date.
  run_emit.
  rewrite bind_run, get_specific_date_papers_run. fold target_date in Hcollect.
  rewrite Hcollect. cbn [ticks log].
  run_emit. rewrite bind_run.
  replace (((log w ++ [Print (MsgFetching target_date)]) ++
            map Print (snd (collect (client_results env) target_date))) ++
           [Print (MsgFetched (List.length papers))])
    with (log w ++ events)
    by (subst events; rewrite <- !app_assoc; reflexivity).
  destruct (analyze_and_generate_report env papers target_date
              {| ticks := S (ticks w); log := log w ++ events |}) as [[a|e] w'];
    reflexivity.
Qed.

(** C7.  When the list was collected and the analysis of one of the top 10
    raises, the run ends with that exception printed as its last line and
    without a JSON document, a report or an email: no event of the run is
    one of these three.  The run itself returns; the exception goes no
    further. *)
Theorem analysis_failure_aborts_run env w papers :
  fst (collect (client_results env) (run_target_date env w)) = Ok papers ->
  Exists (fun paper => exists e, paper_analyzer_analyze_paper env paper = Raise e)
         (top10_of (analyzer_analyze_paper env) papers) ->
  exists e paper events,
    In paper (top10_of (analyzer_analyze_paper env) papers) /\
    paper_analyzer_analyze_paper env paper = Raise e /\
    fst (run_daily_top10 env w) = Ok tt /\
    log (snd (run_daily_top10 env w)) = log w ++ events ++ [Print (MsgRunError e)] /\
    Forall (fun ev => is_report_event ev = false) events.
Proof.
  intros Hcollect Hfails.
  rewrite (run_daily_top10_collected env w papers Hcollect).
  match goal with |- context [analyze_and_generate_report env papers ?d ?v] =>
    destruct (analyze_and_generate_report_raises env papers d v Hfails)
      as (e & paper & out & Hp & He & Hrun) end.
  rewrite Hrun. cbn [fst snd ticks log].
  exists e, paper.
  eexists (([Print (MsgFetching (run_target_date env w))] ++
            map Print (snd (collect (client_results env) (run_target_date env w))) ++
            [Print (MsgFetched (List.length papers))]) ++
           events_before_analysis env papers (run_target_date env w) _ ++
           map Print out).
  split; [assumption|]. split; [assumption|]. split; [reflexivity|]. split.
  - rewrite <- !app_assoc. reflexivity.
  - apply Forall_app. split.
    + constructor; [reflexivity|]. apply Forall_app.
      split; [apply no_report_event_print | now repeat constructor].
    + apply Forall_app.
      split; [apply events_before_analysis_no_report | apply no_report_event_print].
Qed.

Lemma analysis_failure_aborts_run_witness :
  let env := Sample.env_of Sample.feed_day Sample.analysis_failing in
  exists e paper events,
    In paper (top10_of (analyzer_analyze_paper env) [Sample.q1; Sample.q2]) /\
    paper_analyzer_analyze_paper env paper = Raise e /\
    fst (run_daily_top10 env Sample.world0) = Ok tt /\
    log (snd (run_daily_top10 env Sample.world0)) =
      log Sample.world0 ++ events ++ [Print (MsgRunError e)] /\
    Forall (fun ev => is_report_event ev = false) events.
Proof.
  intros env.
  apply (analysis_failure_aborts_run env Sample.world0 [Sample.q1; Sample.q2]).
  - vm_compute. reflexivity.
  - vm_compute. apply Exists_cons_tl, Exists_cons_hd.
    eexists. reflexivity.
Defined.

(** The run of the sample day on which the analysis of the second paper
    fails: the CSV file is written, the first paper is analysed, and the
    run ends with the error. *)
Example failing_run_log :
  let events :=
    log (snd (run_daily_top10
                (Sample.env_of Sample.feed_day Sample.analysis_failing)
                Sample.world0)) in
  existsb is_report_event events = false /\
  existsb (fun ev => match ev with ToCsv _ _ => true | _ => false end) events = true /\
  last events (Makedirs "") = Print (MsgRunError (Exception "analysis failed")).
Proof. vm_compute. repeat split; reflexivity. Qed.

(** C10.  With no paper, [analyze_and_generate_report] goes through every
    step: after the (empty) table and CSV file it writes the JSON document
    of the empty list, asks for the report of the empty list and, the
    report made, sends the empty list by email.  Nothing is left out for an
    empty list; only an exception of a collaborator ends the sequence. *)
Theorem empty_collection_still_reports env target_date w :
  let csv_file := csv_path (clock env (ticks w)) in
  let analysis_file := json_path (clock env (S (ticks w)) + utcoffset env) in
  log (snd (analyze_and_generate_report env [] target_date w)) =
    log w ++
    [Print MsgAnalyzing; Makedirs "data/analysis"; Makedirs "config";
     Print (MsgTop10Header target_date); Print MsgTop10Columns; Print MsgTop10Rule;
     Makedirs "data/daily_top10";
     ToCsv csv_file {| columns := []; rows := [] |};
     Print (MsgCsvSaved csv_file);
     JsonDump analysis_file [];
     Print (MsgAnalysisSaved analysis_file);
     Print MsgHtmlGenerating;
     GenerateReport []] ++
    match analysis_manager_generate_report env [] with
    | Ok report_file =>
        [Print (MsgHtmlGenerated report_file); Print MsgEmailSending; SendReport []]
    | Raise _ => []
    end /\
  (forall report_file,
     analysis_manager_generate_report env [] = Ok report_file ->
     fst (analyze_and_generate_report env [] target_date w) =
       match email_sender_send_report env [] with
       | Ok _ => Ok []
       | Raise e => Raise e
       end).
Proof.
  intros csv_file analysis_file.
  unfold analyze_and_generate_report. do 3 run_emit.
  rewrite bind_run, save_top10_run.
  change (top10_of (analyzer_analyze_paper env) []) with (@nil Scored.t).
  cbn [ticks log map app analyze_each].
  unfold bind, ret, datetime_now, emit, call. cbn [ticks log].
  fold csv_file analysis_file.
  destruct (analysis_manager_generate_report env []) as [report_file|e].
  - cbn [ticks log].
    split.
    + destruct (email_sender_send_report env []); cbn [snd log];
        rewrite <- !app_assoc; reflexivity.
    + intros f _. destruct (email_sender_send_report env []); reflexivity.
  - cbn [snd log]. rewrite <- !app_assoc. split; [reflexivity|].
    intros f Hf. discriminate Hf.
Qed.

(** ** The scenarios of the specification *)

(** The feed raises after two papers of the window: they are returned. *)
Example scenario_partial_list :
  collect Sample.feed_partial Sample.target =
    (Ok [Sample.q1; Sample.q2], [MsgCollectError Sample.timeout]).
Proof. vm_compute. reflexivity. Qed.

(** The feed raises with no paper collected and the window extended three
    times: the call raises. *)
Example scenario_error_after_three_extensions :
  collect Sample.feed_old_then_down Sample.target =
    (Raise Sample.timeout,
     [MsgLookback Sample.target 1; MsgLookback Sample.target 2;
      MsgLookback Sample.target 3; MsgCollectError Sample.timeout]) /\
  error_retries (final (scan Sample.feed_old_then_down Sample.target)) = 3.
Proof. vm_compute. split; reflexivity. Qed.

(** There is no fourth extension: the next old record ends the loop, and
    the empty list is returned without an error. *)
Example scenario_no_fourth_extension :
  fst (collect Sample.feed_old Sample.target) = Ok [] /\
  exit (scan Sample.feed_old Sample.target) = Broke /\
  error_retries (final (scan Sample.feed_old Sample.target)) = 3 /\
  target_start (final (scan Sample.feed_old Sample.target)) =
    Sample.target * DAY - 3 * DAY.
Proof. vm_compute. repeat split; reflexivity. Qed.

(** Fifteen papers with the scores 1 to 15: ten items, ranked 1 to 10, with
    the scores 15 down to 6. *)
Example scenario_fifteen_papers :
  map (fun r => (Scored.rank r, Scored.score r))
      (top10_of Sample.minute_score Sample.fifteen) =
  [(1, inject_Z 15); (2, inject_Z 14); (3, inject_Z 13); (4, inject_Z 12);
   (5, inject_Z 11); (6, inject_Z 10); (7, inject_Z 9); (8, inject_Z 8);
   (9, inject_Z 7); (10, inject_Z 6)].
Proof. vm_compute. reflexivity. Qed.

(** Papers of one score keep the order of the feed. *)
Example scenario_ties_keep_order :
  map Scored.url (top10_of Sample.scorer [Sample.q1; Sample.p1; Sample.q2; Sample.p2]) =
  ["q2"; "q1"; "p1"; "p2"]%string.
Proof. vm_compute. reflexivity. Qed.

(** A day with no paper: the run goes through to the email. *)
Example scenario_empty_day :
  let env := Sample.env_of {| feed_items := []; feed_end := StopIteration |}
                           Sample.analysis in
  filter is_report_event (log (snd (run_daily_top10 env Sample.world0))) =
  [JsonDump "data/analysis/analysis_results_20240301_093002.json" [];
   GenerateReport []; SendReport []].
Proof. vm_compute. reflexivity. Qed.

(** * Further properties *)

(** ** The collector: order, sorted feeds, output *)

Lemma subseq_nil_l {A : Type} (l : list A) : subseq [] l.
Proof. induction l; constructor; assumption. Qed.

Lemma for_loop_subseq target_date target_end items fin st :
  exists l,
    papers (final (for_loop target_date target_end items fin st)) = papers st ++ l /\
    subseq l items.
Proof.
  revert st. induction items as [|paper rest IH]; intros st.
  - exists []. split; [now rewrite app_nil_r | constructor].
  - cbn [for_loop].
    destruct (loop_body_cases target_date target_end st paper)
      as (c & st' & out & E & Hstep).
    rewrite E.
    destruct Hstep as [Hnew | Hend Hold Hempty Hlt | Hend Hold Hstop | Hin];
      cbn [final].
    + destruct (IH st) as (l & Hl & Hsub). exists l. split; [assumption|].
      now constructor.
    + match goal with |- context [for_loop _ _ rest fin ?s] =>
        destruct (IH s) as (l & Hl & Hsub) end.
      exists l. split; [|now constructor].
      rewrite Hl, Hempty. reflexivity.
    + exists []. split; [now rewrite app_nil_r | apply subseq_nil_l].
    + match goal with |- context [for_loop _ _ rest fin ?s] =>
        destruct (IH s) as (l & Hl & Hsub) end.
      exists (paper :: l). split; [|now constructor].
      rewrite Hl. cbn [papers]. now rewrite <- app_assoc.
Qed.

Lemma collect_ok_papers results target_date ps :
  fst (collect results target_date) = Ok ps ->
  ps = papers (final (scan results target_date)).
Proof.
  rewrite collect_value.
  destruct (exit (scan results target_date));
    destruct (papers (final (scan results target_date))); congruence.
Qed.

(** X1.  The list [get_specific_date_papers] returns is made of items of
    the feed in the order of the feed: items are left out, none is moved,
    repeated or made up. *)
Theorem collected_in_feed_order env target_date w ps :
  fst (get_specific_date_papers env target_date w) = Ok ps ->
  subseq ps (feed_items (client_results env)).
Proof.
  rewrite get_specific_date_papers_run. cbn [fst]. intros Hok.
  apply collect_ok_papers in Hok. subst ps. unfold scan.
  destruct (for_loop_subseq target_date (window_end target_date)
              (feed_items (client_results env)) (feed_end (client_results env))
              (initial_state target_date)) as (l & Hl & Hsub).
  rewrite Hl. exact Hsub.
Qed.

Lemma collected_in_feed_order_witness :
  subseq [Sample.q1; Sample.q2]
         (feed_items (client_results (Sample.env_of Sample.feed_day Sample.analysis))).
Proof.
  apply (collected_in_feed_order (Sample.env_of Sample.feed_day Sample.analysis)
           Sample.target Sample.world0).
  vm_compute. reflexivity.
Defined.

Section SortedFeed.
Variables target_date target_end : Z.

(** Descending order of submission. *)
Let newest_first : list Paper -> Prop :=
  StronglySorted (fun a b => published b <= published a).

Lemma filter_none (f : Paper -> bool) l :
  Forall (fun p => f p = false) l -> filter f l = [].
Proof.
  induction 1 as [|p l Hp _ IH]; cbn; [reflexivity|]. now rewrite Hp.
Qed.

(** Once a paper is collected, a feed in descending order gives the rest
    of the window, and the window stays. *)
Lemma for_loop_collecting items fin st :
  newest_first items ->
  papers st <> [] ->
  Forall (fun p => published p < target_end) items ->
  let r := for_loop target_date target_end items fin st in
  papers (final r) = papers st ++ filter (in_window (target_start st) target_end) items /\
  target_start (final r) = target_start st /\
  error_retries (final r) = error_retries st.
Proof.
  intros Hsorted. revert st.
  induction Hsorted as [|q rest Hrest IH Hq]; intros st Hne Hend r; subst r.
  - cbn. now rewrite app_nil_r.
  - inversion Hend as [|? ? Hqend Hrestend]; subst. cbn [for_loop].
    destruct (Z_lt_ge_dec (published q) (target_start st)) as [Hold|Hin].
    + rewrite loop_body_break by (lia || now left). cbn [final].
      rewrite filter_none; [now rewrite app_nil_r|].
      rewrite Forall_forall in Hq |- *. intros p Hp.
      assert (published p <= published q)
        by (destruct Hp as [<-|Hp]; [lia | now apply Hq]).
      unfold in_window.
      destruct (Z.leb_spec (target_start st) (published p)); [lia | reflexivity].
    + rewrite loop_body_append by lia. cbn [final].
      match goal with |- context [for_loop _ _ rest fin ?s] =>
        destruct (IH s) as (Hp & Hs & Hr) end.
      { cbn. now destruct (papers st). }
      { assumption. }
      cbn [target_start error_retries papers] in Hp, Hs, Hr.
      rewrite Hp, Hs, Hr. cbn [filter]. unfold in_window at 2.
      destruct (Z.leb_spec (target_start st) (published q)); [|lia].
      destruct (Z.ltb_spec (published q) target_end); [|lia].
      cbn. now rewrite <- app_assoc.
Qed.

(** While nothing is collected, a feed in descending order that has a
    paper in the current window gives the papers of that window, all of
    them, with no extension. *)
Lemma for_loop_searching items fin st :
  newest_first items ->
  papers st = [] ->
  Exists (fun p => in_window (target_start st) target_end p = true) items ->
  let r := for_loop target_date target_end items fin st in
  papers (final r) = filter (in_window (target_start st) target_end) items /\
  target_start (final r) = target_start st /\
  error_retries (final r) = error_retries st.
Proof.
  intros Hsorted Hempty. 
  induction Hsorted as [|p rest Hrest IH Hp]; intros Hex r; subst r.
  - inversion Hex.
  - cbn [for_loop filter].
    destruct (Z_le_gt_dec target_end (published p)) as [Hnew|Hend].
    + rewrite loop_body_too_new by assumption. cbn [final].
      assert (Hout : in_window (target_start st) target_end p = false).
      { unfold in_window.
        destruct (Z.ltb_spec (published p) target_end); [lia|].
        apply andb_false_r. }
      rewrite Hout. apply IH.
      inversion Hex as [? ? Hin|]; subst; [congruence | assumption].
    + destruct (Z_lt_ge_dec (published p) (target_start st)) as [Hold|Hin].
      * exfalso. apply Exists_exists in Hex. destruct Hex as (q & Hq & Hwin).
        unfold in_window in Hwin. apply andb_true_iff in Hwin.
        destruct Hwin as [Hge _]. apply Z.leb_le in Hge.
        destruct Hq as [<-|Hq]; [lia|].
        rewrite Forall_forall in Hp. specialize (Hp q Hq). lia.
      * rewrite loop_body_append by lia. cbn [final].
        assert (Hwin : in_window (target_start st) target_end p = true).
        { unfold in_window. apply andb_true_iff.
          split; [apply Z.leb_le | apply Z.ltb_lt]; lia. }
        rewrite Hwin.
        match goal with |- context [for_loop _ _ rest fin ?s] =>
          destruct (for_loop_collecting rest fin s Hrest) as (Hps & Hs & Hr) end.
        { cbn. now destruct (papers st). }
        { rewrite Forall_forall in Hp |- *. intros q Hq.
          specialize (Hp q Hq). lia. }
        cbn [target_start error_retries papers] in Hps, Hs, Hr.
        rewrite Hps, Hs, Hr, Hempty. auto.
Qed.
End SortedFeed.

Lemma filter_some {A : Type} (f : A -> bool) l :
  Exists (fun p => f p = true) l -> filter f l <> [].
Proof.
  induction 1 as [p l Hp | p l _ IH]; cbn.
  - rewrite Hp. discriminate.
  - destruct (f p); [discriminate | assumption].
Qed.

Lemma collect_nonempty results target_date :
  papers (final (scan results target_date)) <> [] ->
  fst (collect results target_date) = Ok (papers (final (scan results target_date))).
Proof.
  intros Hne. rewrite collect_value.
  destruct (exit (scan results target_date));
    destruct (papers (final (scan results target_date))); congruence.
Qed.

(** X2.  For a feed in descending order of submission (what the query asks
    for) that has at least one paper of the target day,
    [get_specific_date_papers] returns exactly the papers of the target day
    that the feed yields, in the order of the feed, with no lookback
    extension, whether the feed ends or raises. *)
Theorem sorted_feed_gives_target_day env target_date w :
  let items := feed_items (client_results env) in
  let wanted := in_window (target_date * DAY) (target_date * DAY + DAY) in
  StronglySorted (fun a b => published b <= published a) items ->
  Exists (fun p => wanted p = true) items ->
  fst (get_specific_date_papers env target_date w) = Ok (filter wanted items) /\
  error_retries (final (scan (client_results env) target_date)) = 0 /\
  target_start (final (scan (client_results env) target_date)) = target_date * DAY.
Proof.
  intros items wanted Hsorted Hex. subst items.
  destruct (for_loop_searching target_date (window_end target_date)
              (feed_items (client_results env))
              (feed_end (client_results env)) (initial_state target_date)
              Hsorted eq_refl Hex) as (Hps & Hs & Hr).
  fold (scan (client_results env) target_date) in Hps, Hs, Hr.
  cbn [initial_state target_start error_retries] in Hps, Hs, Hr.
  refine (conj _ (conj Hr Hs)).
  rewrite get_specific_date_papers_run. cbn [fst].
  rewrite collect_nonempty; rewrite Hps; [reflexivity|].
  now apply filter_some.
Qed.

Lemma sorted_feed_gives_target_day_witness :
  let env := Sample.env_of Sample.feed_day Sample.analysis in
  fst (get_specific_date_papers env Sample.target Sample.world0) =
    Ok (filter (in_window (Sample.target * DAY) (Sample.target * DAY + DAY))
               (feed_items (client_results env))) /\
  error_retries (final (scan (client_results env) Sample.target)) = 0 /\
  target_start (final (scan (client_results env) Sample.target)) = Sample.target * DAY.
Proof.
  intros env.
  apply (sorted_feed_gives_target_day env Sample.target Sample.world0).
  - repeat (constructor; [|repeat (constructor; [vm_compute; discriminate|]);
                           constructor]).
    constructor.
  - apply Exists_cons_tl, Exists_cons_hd. vm_compute. reflexivity.
Defined.

(** X3.  The lookback at work on a feed in descending order: when the first
    record that is not too new was published in the day before the target
    day and a later record falls in the window extended by that day, the
    call returns exactly the later records of the extended window, after one
    extension; the record that set it off is not among them. *)
Theorem lookback_gives_previous_day env target_date w newer paper rest :
  let wanted := in_window (target_date * DAY - DAY) (target_date * DAY + DAY) in
  feed_items (client_results env) = newer ++ paper :: rest ->
  Forall (fun q => target_date * DAY + DAY <= published q) newer ->
  target_date * DAY - DAY <= published paper < target_date * DAY ->
  StronglySorted (fun a b => published b <= published a) rest ->
  Exists (fun p => wanted p = true) rest ->
  fst (get_specific_date_papers env target_date w) = Ok (filter wanted rest) /\
  error_retries (final (scan (client_results env) target_date)) = 1.
Proof.
  intros wanted Hitems Hnewer Hday Hsorted Hex.
  assert (HD : DAY = 86400000000) by reflexivity.
  assert (Hscan :
    scan (client_results env) target_date =
    let r := for_loop target_date (window_end target_date) rest
               (feed_end (client_results env))
               {| target_start := target_date * DAY - DAY;
                  error_retries := 1; papers := [] |} in
    {| final := final r; exit := exit r;
       printed := [MsgLookback target_date 1] ++ printed r |}).
  { unfold scan. rewrite Hitems, for_loop_skip by assumption.
    cbn [for_loop]. rewrite loop_body_extend;
      unfold window_end, initial_state; cbn [target_start error_retries papers];
      (reflexivity || lia). }
  destruct (for_loop_searching target_date (window_end target_date) rest
              (feed_end (client_results env))
              {| target_start := target_date * DAY - DAY;
                 error_retries := 1; papers := [] |}
              Hsorted eq_refl Hex) as (Hps & _ & Hr).
  cbn [target_start error_retries] in Hps, Hr.
  split; [|rewrite Hscan; exact Hr].
  rewrite get_specific_date_papers_run. cbn [fst].
  rewrite collect_nonempty; rewrite Hscan; cbn [final]; rewrite Hps;
    [reflexivity|].
  now apply filter_some.
Qed.

Lemma lookback_gives_previous_day_witness :
  let env := Sample.env_of Cases.feed_eve Sample.analysis in
  fst (get_specific_date_papers env Sample.target Sample.world0) =
    Ok [Sample.p2; Cases.p3] /\
  error_retries (final (scan (client_results env) Sample.target)) = 1.
Proof.
  intros env.
  apply (lookback_gives_previous_day env Sample.target Sample.world0
           [Sample.n1] Sample.p1 [Sample.p2; Cases.p3; Sample.o1]).
  - reflexivity.
  - constructor; [vm_compute; discriminate | constructor].
  - split; vm_compute; [discriminate | reflexivity].
  - repeat (constructor; [|repeat (constructor; [vm_compute; discriminate|]);
                           constructor]).
    constructor.
  - apply Exists_cons_hd. vm_compute. reflexivity.
Defined.

(** The four ways through the loop body, with what each prints. *)
Lemma loop_body_printed target_date target_end st paper :
  exists c st',
    (loop_body target_date target_end st paper = (c, st', []) /\
     error_retries st' = error_retries st) \/
    (loop_body target_date target_end st paper =
       (c, st', [MsgLookback target_date (error_retries st + 1)]) /\
     error_retries st' = error_retries st + 1).
Proof.
  destruct (Z_le_gt_dec target_end (published paper)) as [Hnew|Hend].
  - rewrite loop_body_too_new by assumption. eauto.
  - destruct (Z_lt_ge_dec (published paper) (target_start st)) as [Hold|Hin].
    + destruct (papers st) as [|p ps] eqn:Hp.
      * destruct (Z_lt_ge_dec (error_retries st) 3) as [Hr|Hr].
        -- rewrite loop_body_extend by (assumption || lia). eauto.
        -- rewrite loop_body_break by lia. eauto.
      * rewrite loop_body_break by (lia || (left; congruence)). eauto.
    + rewrite loop_body_append by lia. eauto.
Qed.

Lemma for_loop_retries_le target_date target_end items fin st :
  error_retries st <=
  error_retries (final (for_loop target_date target_end items fin st)).
Proof.
  pose proof (visited_extensions target_date target_end items fin st) as Hext.
  assert (Hpos : forall trace, 0 <= extensions trace).
  { induction trace as [|a [|b tl] IH]; cbn [extensions]; try lia.
    cbn [extensions] in IH. destruct (target_start b <? target_start a); lia. }
  specialize (Hpos (visited target_date target_end items st)). lia.
Qed.

(** The lines the loop prints: one per extension, numbered from the next
    one on. *)
Lemma for_loop_printed target_date target_end items fin st :
  let r := for_loop target_date target_end items fin st in
  printed r =
    map (fun k => MsgLookback target_date (error_retries st + Z.of_nat k))
        (seq 1 (Z.to_nat (error_retries (final r) - error_retries st))).
Proof.
  revert st. induction items as [|paper rest IH]; intros st r; subst r.
  - cbn [for_loop final printed]. now rewrite Z.sub_diag.
  - cbn [for_loop].
    destruct (loop_body_printed target_date target_end st paper)
      as (c & st' & [[E Hr]|[E Hr]]); rewrite E.
    + destruct c; cbn [final printed app].
      * rewrite IH, Hr. reflexivity.
      * rewrite Hr, Z.sub_diag. reflexivity.
    + pose proof (for_loop_retries_le target_date target_end rest fin st') as Hle.
      destruct c; cbn [final printed app].
      * rewrite IH.
        set (n := error_retries
                    (final (for_loop target_date target_end rest fin st'))) in *.
        replace (Z.to_nat (n - error_retries st))
          with (S (Z.to_nat (n - error_retries st'))) by lia.
        cbn [seq map]. f_equal.
        rewrite <- (seq_shift _ 1), map_map. apply map_ext. intros k.
        f_equal. lia.
      * replace (error_retries st' - error_retries st) with 1 by lia.
        reflexivity.
Qed.

(** X4.  [get_specific_date_papers] changes nothing but the console, and
    does not read the clock: it prints one line per lookback extension,
    numbered 1, 2, ... up to the number of extensions made, and then the
    error line exactly when the loop was ended by an exception of the
    feed. *)
Theorem collector_prints_only env target_date w :
  let r := scan (client_results env) target_date in
  snd (get_specific_date_papers env target_date w) =
    {| ticks := ticks w;
       log := log w ++
              map Print
                (map (fun k => MsgLookback target_date (Z.of_nat k))
                     (seq 1 (Z.to_nat (error_retries (final r)))) ++
                 match exit r with
                 | Raised e => [MsgCollectError e]
                 | _ => []
                 end) |}.
Proof.
  intros r. rewrite get_specific_date_papers_run. cbn [snd].
  do 3 f_equal. unfold collect. fold r.
  assert (Hprinted :
    printed r =
    map (fun k => MsgLookback target_date (Z.of_nat k))
        (seq 1 (Z.to_nat (error_retries (final r))))).
  { subst r. unfold scan. rewrite for_loop_printed.
    cbn [initial_state error_retries]. rewrite Z.sub_0_r. reflexivity. }
  destruct (exit r); [| |destruct (papers (final r))]; cbn [snd];
    rewrite Hprinted; now rewrite ?app_nil_r.
Qed.

(** ** The ranker: what is kept, what the cells hold *)

(** X5.  The top 10 are the best 10: the list [save_top10] returns, its
    ranks apart, and the papers it leaves out are together a rearrangement
    of the scored papers; as many are left out as there are papers beyond
    ten; and no paper left out has a higher score than a paper kept. *)
Theorem top10_keeps_the_best env papers target_date w :
  exists top10 dropped,
    fst (save_top10 env papers target_date w) = Ok top10 /\
    Permutation (map (Scored.set_rank 0) top10 ++ dropped)
                (paper_scores (analyzer_analyze_paper env) papers) /\
    List.length dropped = (List.length papers - 10)%nat /\
    (forall kept out,
       In kept top10 -> In out dropped ->
       (Scored.score out <= Scored.score kept)%Q).
Proof.
  set (all := paper_scores (analyzer_analyze_paper env) papers).
  exists (top10_of (analyzer_analyze_paper env) papers),
         (skipn 10 (sort_by_score all)).
  rewrite save_top10_run. cbn [fst]. unfold top10_of. fold all.
  assert (Hunrank :
    map (Scored.set_rank 0) (enumerate_rank 1 (firstn 10 (sort_by_score all))) =
    firstn 10 (sort_by_score all))
    by apply enumerate_rank_unrank, top10_candidates_rank0.
  refine (conj eq_refl (conj _ (conj _ _))).
  - rewrite Hunrank, firstn_skipn. apply list_sort_perm.
  - rewrite length_skipn, sort_by_score_length. subst all.
    unfold paper_scores. now rewrite length_map.
  - intros kept out Hkept Hout.
    assert (Hin : In (Scored.set_rank 0 kept) (firstn 10 (sort_by_score all)))
      by (rewrite <- Hunrank; now apply in_map).
    pose proof (sort_by_score_sorted all) as Hsorted.
    rewrite <- (firstn_skipn 10 (sort_by_score all)) in Hsorted.
    exact (StronglySorted_app_inv _ _ _ Hsorted _ _ Hin Hout).
Qed.

Lemma replace_newlines_has_char s :
  has_char (ascii_of_nat 10) (replace_newlines s) = false.
Proof.
  induction s as [|c s IH]; [reflexivity|].
  cbn [replace_newlines has_char]. rewrite IH, orb_false_r.
  destruct (Ascii.eqb c (ascii_of_nat 10)) eqn:E; [reflexivity|].
  rewrite Ascii.eqb_sym. exact E.
Qed.

Lemma replace_newlines_length s :
  String.length (replace_newlines s) = String.length s.
Proof. induction s as [|c s IH]; cbn; congruence. Qed.

Lemma replace_newlines_get i s :
  String.get i (replace_newlines s) =
  option_map (fun c => if Ascii.eqb c (ascii_of_nat 10) then ascii_of_nat 32 else c)
             (String.get i s).
Proof.
  revert i. induction s as [|c s IH]; intros i; [reflexivity|].
  destruct i as [|i]; cbn [replace_newlines String.get option_map];
    [reflexivity | apply IH].
Qed.

(** X6.  The title and the abstract of every item [save_top10] returns (the
    cells of the CSV file) are the title and the summary of the paper the
    item comes from with every line feed replaced by one space and every
    other character kept in its place: they hold no line feed and are as
    long as the originals. *)
Theorem top10_cells_have_no_line_feed env papers target_date w top10 r :
  fst (save_top10 env papers target_date w) = Ok top10 ->
  In r top10 ->
  let spaced := fun c => if Ascii.eqb c (ascii_of_nat 10) then ascii_of_nat 32 else c in
  has_char (ascii_of_nat 10) (Scored.title r) = false /\
  has_char (ascii_of_nat 10) (Scored.abstract r) = false /\
  exists paper,
    In paper papers /\
    Scored.url r = entry_id paper /\
    (forall i, String.get i (Scored.title r) =
               option_map spaced (String.get i (title paper))) /\
    (forall i, String.get i (Scored.abstract r) =
               option_map spaced (String.get i (summary paper))) /\
    String.length (Scored.title r) = String.length (title paper) /\
    String.length (Scored.abstract r) = String.length (summary paper).
Proof.
  intros Hok Hr spaced. rewrite save_top10_run in Hok. cbn [fst] in Hok.
  inversion Hok; subst top10.
  destruct (top10_of_from_papers _ _ _ Hr) as (paper & Hp & Heq).
  assert (Ht : Scored.title r = replace_newlines (title paper))
    by (change (Scored.title r) with (Scored.title (Scored.set_rank 0 r));
        now rewrite Heq).
  assert (Ha : Scored.abstract r = replace_newlines (summary paper))
    by (change (Scored.abstract r) with (Scored.abstract (Scored.set_rank 0 r));
        now rewrite Heq).
  assert (Hu : Scored.url r = entry_id paper)
    by (change (Scored.url r) with (Scored.url (Scored.set_rank 0 r));
        now rewrite Heq).
  rewrite Ht, Ha.
  refine (conj (replace_newlines_has_char _) (conj (replace_newlines_has_char _) _)).
  exists paper. rewrite !replace_newlines_length.
  refine (conj Hp (conj Hu (conj _ (conj _ (conj eq_refl eq_refl)))));
    intros i; apply replace_newlines_get.
Qed.

(** A paper whose title and summary run over two lines: both come out on
    one line, with a space where the line feed was. *)
Lemma top10_cells_have_no_line_feed_witness :
  let r := Scored.set_rank 2 (scored (1 # 2) Cases.two_lines_paper) in
  Scored.title r = "deep nets"%string /\
  Scored.abstract r = "we train them"%string /\
  has_char (ascii_of_nat 10) (title Cases.two_lines_paper) = true /\
  has_char (ascii_of_nat 10) (Scored.title r) = false /\
  has_char (ascii_of_nat 10) (Scored.abstract r) = false /\
  String.get 4 (title Cases.two_lines_paper) = Some (ascii_of_nat 10) /\
  String.get 4 (Scored.title r) = Some " "%char.
Proof.
  intros r.
  destruct (top10_cells_have_no_line_feed
              (Sample.env_of Sample.feed_day Sample.analysis)
              [Sample.q1; Cases.two_lines_paper] Sample.target Sample.world0
              (top10_of Sample.scorer [Sample.q1; Cases.two_lines_paper]) r)
    as (Ht & Ha & paper & Hp & Hu & Hgt & Hga & _).
  - rewrite save_top10_run. reflexivity.
  - right. left. vm_compute. reflexivity.
  - assert (paper = Cases.two_lines_paper) as ->.
    { destruct Hp as [<-|[<-|[]]]; [discriminate Hu | reflexivity]. }
    assert (Hspace : String.get 4 (Scored.title r) = Some " "%char)
      by (rewrite Hgt; reflexivity).
    refine (conj _ (conj _ (conj _ (conj Ht (conj Ha (conj _ Hspace))))));
      vm_compute; reflexivity.
Defined.

(** ** Dates and file names *)

Lemma civil_from_days_month_day days :
  let '(y, m, d) := civil_from_days days in 1 <= m <= 12 /\ 1 <= d <= 31.
Proof.
  unfold civil_from_days.
  set (z := days + 719468). set (era := z / 146097).
  set (doe := z - era * 146097).
  assert (Hdoe : 0 <= doe <= 146096)
    by (subst doe era; Z.div_mod_to_equations; lia).
  clearbody doe. clear z era.
  set (yoe := (doe - doe / 1460 + doe / 36524 - doe / 146096) / 365).
  set (doy := doe - (365 * yoe + yoe / 4 - yoe / 100)).
  assert (Hyoe : 0 <= yoe <= 399 /\ 0 <= doy <= 365)
    by (subst doy yoe; Z.div_mod_to_equations; lia).
  clearbody doy.
  set (mp := (5 * doy + 2) / 153).
  assert (Hmp : 0 <= mp <= 11) by (subst mp; Z.div_mod_to_equations; lia).
  destruct (Z.ltb_spec mp 10); split; try lia.
  all: subst mp; Z.div_mod_to_equations; lia.
Qed.

Lemma civil_from_days_year days :
  datetime_day days ->
  let '(y, m, d) := civil_from_days days in 1000 <= y <= 9999.
Proof.
  unfold datetime_day, civil_from_days. intros Hdays.
  set (z := days + 719468). set (era := z / 146097).
  set (doe := z - era * 146097).
  assert (Hdoe : 0 <= doe <= 146096 /\ 2 <= era <= 24 /\
                 (era = 2 -> 72989 <= doe) /\ (era = 24 -> doe <= 146036))
    by (subst doe era z; Z.div_mod_to_equations; lia).
  clearbody doe. clearbody era. clear z.
  set (yoe := (doe - doe / 1460 + doe / 36524 - doe / 146096) / 365).
  set (doy := doe - (365 * yoe + yoe / 4 - yoe / 100)).
  assert (Hyoe : 0 <= yoe <= 399 /\ 0 <= doy <= 365 /\
                 (72989 <= doe -> 199 <= yoe) /\
                 (yoe = 199 -> 72989 <= doe -> 306 <= doy) /\
                 (yoe = 399 -> doe <= 146036 -> doy <= 305))
    by (subst doy yoe; Z.div_mod_to_equations; lia).
  clearbody doy. clearbody yoe.
  set (mp := (5 * doy + 2) / 153).
  assert (Hmp : 0 <= mp <= 11 /\ (306 <= doy -> 10 <= mp) /\ (doy <= 305 -> mp <= 9))
    by (subst mp; Z.div_mod_to_equations; lia).
  clearbody mp.
  destruct (Z.ltb_spec mp 10).
  - destruct (Z.leb_spec (mp + 3) 2); lia.
  - destruct (Z.leb_spec (mp - 9) 2); lia.
Qed.

(** A date names one day. *)
Lemma days_from_civil_from_days days :
  let '(y, m, d) := civil_from_days days in days_from_civil y m d = days.
Proof.
  unfold civil_from_days.
  set (z := days + 719468). set (era := z / 146097).
  set (doe := z - era * 146097).
  assert (Hdoe : 0 <= doe <= 146096)
    by (subst doe era; Z.div_mod_to_equations; lia).
  assert (Hz : days = era * 146097 + doe - 719468) by (subst doe z; lia).
  clearbody doe. clearbody era. clear z.
  set (yoe := (doe - doe / 1460 + doe / 36524 - doe / 146096) / 365).
  set (doy := doe - (365 * yoe + yoe / 4 - yoe / 100)).
  assert (Hyoe : 0 <= yoe <= 399 /\ 0 <= doy <= 365)
    by (subst doy yoe; Z.div_mod_to_equations; lia).
  assert (Hdoe' : doe = 365 * yoe + yoe / 4 - yoe / 100 + doy)
    by (subst doy; lia).
  clearbody doy. clearbody yoe.
  set (mp := (5 * doy + 2) / 153).
  assert (Hmp : 0 <= mp <= 11) by (subst mp; Z.div_mod_to_equations; lia).
  set (d := doy - (153 * mp + 2) / 5 + 1).
  assert (Hd : (153 * mp + 2) / 5 + d - 1 = doy) by (subst d; lia).
  clearbody d. clearbody mp.
  unfold days_from_civil.
  destruct (Z.ltb_spec mp 10).
  - destruct (Z.leb_spec (mp + 3) 2); [lia|].
    destruct (Z.ltb_spec 2 (mp + 3)); [|lia].
    replace (mp + 3 - 3) with mp by lia. rewrite Hd.
    replace ((yoe + era * 400) / 400) with era
      by (Z.div_mod_to_equations; lia).
    replace (yoe + era * 400 - era * 400) with yoe by lia. lia.
  - destruct (Z.leb_spec (mp - 9) 2); [|lia].
    destruct (Z.ltb_spec 2 (mp - 9)); [lia|].
    replace (mp - 9 + 9) with mp by lia. rewrite Hd.
    replace (yoe + era * 400 + 1 - 1) with (yoe + era * 400) by lia.
    replace ((yoe + era * 400) / 400) with era
      by (Z.div_mod_to_equations; lia).
    replace (yoe + era * 400 - era * 400) with yoe by lia. lia.
Qed.

Lemma civil_from_days_inj days1 days2 :
  civil_from_days days1 = civil_from_days days2 -> days1 = days2.
Proof.
  intros H.
  pose proof (days_from_civil_from_days days1) as H1.
  pose proof (days_from_civil_from_days days2) as H2.
  rewrite H in H1. destruct (civil_from_days days2) as [[y m] d]. congruence.
Qed.

Lemma digit_char_inj x y :
  ascii_of_nat (48 + Z.to_nat (x mod 10)) = ascii_of_nat (48 + Z.to_nat (y mod 10)) ->
  x mod 10 = y mod 10.
Proof.
  intros H. apply (f_equal nat_of_ascii) in H.
  pose proof (Z.mod_pos_bound x 10 ltac:(lia)).
  pose proof (Z.mod_pos_bound y 10 ltac:(lia)).
  rewrite !nat_ascii_embedding in H by lia. lia.
Qed.

Lemma append_inj_l (s a b : string) : (s ++ a)%string = (s ++ b)%string -> a = b.
Proof.
  induction s as [|c s IH]; cbn; intros H; [assumption|].
  injection H as H. now apply IH.
Qed.

Lemma string_digit_inj x y s t :
  String (ascii_of_nat (48 + Z.to_nat (x mod 10))) s =
  String (ascii_of_nat (48 + Z.to_nat (y mod 10))) t ->
  x mod 10 = y mod 10 /\ s = t.
Proof.
  intros H. injection H as Hc Hs. split; [|assumption].
  now apply digit_char_inj.
Qed.

Lemma string_cons_inj c s t : String c s = String c t -> s = t.
Proof. intros H. now injection H. Qed.

(** Reads the digits of two equal dates as equations between numbers. *)
Ltac digits_of H :=
  unfold fmt4, fmt2, digit in H; cbn [append] in H;
  repeat first
    [ apply string_digit_inj in H;
      let Hc := fresh "Hc" in destruct H as [Hc H]
    | apply string_cons_inj in H ].

Lemma csv_path_day now1 now2 :
  datetime_day (day_of now1) ->
  datetime_day (day_of now2) ->
  csv_path now1 = csv_path now2 -> day_of now1 = day_of now2.
Proof.
  intros Hr1 Hr2 H. unfold csv_path in H. apply append_inj_l in H.
  unfold strftime_Ymd in H.
  pose proof (civil_from_days_month_day (day_of now1)) as Hmd1.
  pose proof (civil_from_days_month_day (day_of now2)) as Hmd2.
  pose proof (civil_from_days_year (day_of now1) Hr1) as Hy1.
  pose proof (civil_from_days_year (day_of now2) Hr2) as Hy2.
  apply civil_from_days_inj.
  destruct (civil_from_days (day_of now1)) as [[y1 m1] d1].
  destruct (civil_from_days (day_of now2)) as [[y2 m2] d2].
  digits_of H.
  assert (y1 = y2) by (Z.div_mod_to_equations; lia).
  assert (m1 = m2) by (Z.div_mod_to_equations; lia).
  assert (d1 = d2) by (Z.div_mod_to_equations; lia).
  congruence.
Qed.

(** X7.  Within the years 1000 to 9999, two calls of [save_top10] name the same
    CSV file exactly when they read the clock on the same UTC day: a later
    run of the same day replaces the file, a run of another day never
    does. *)
Theorem csv_path_same_iff_same_day now1 now2 :
  datetime_day (day_of now1) ->
  datetime_day (day_of now2) ->
  csv_path now1 = csv_path now2 <-> day_of now1 = day_of now2.
Proof.
  intros Hr1 Hr2. split.
  - now apply csv_path_day.
  - intros H. unfold csv_path, strftime_Ymd. now rewrite H.
Qed.

Lemma csv_path_same_iff_same_day_witness :
  csv_path (Sample.target * DAY + 5) = csv_path (Sample.target * DAY + DAY - 1) <->
  day_of (Sample.target * DAY + 5) = day_of (Sample.target * DAY + DAY - 1).
Proof.
  apply csv_path_same_iff_same_day; unfold datetime_day; vm_compute;
    split; discriminate.
Defined.

(** X8.  Within the years 1000 to 9999, two calls of
    [analyze_and_generate_report] name the same JSON file exactly when their
    local times fall in the same second. *)
Theorem json_path_same_iff_same_second now1 now2 :
  datetime_day (day_of now1) ->
  datetime_day (day_of now2) ->
  json_path now1 = json_path now2 <-> now1 / SECOND = now2 / SECOND.
Proof.
  intros Hr1 Hr2. split.
  - intros H. unfold json_path in H. apply append_inj_l in H.
    unfold strftime_Ymd_HMS, strftime_Ymd in H.
    pose proof (civil_from_days_month_day (day_of now1)) as Hmd1.
    pose proof (civil_from_days_month_day (day_of now2)) as Hmd2.
    pose proof (civil_from_days_year (day_of now1) Hr1) as Hy1.
    pose proof (civil_from_days_year (day_of now2) Hr2) as Hy2.
    assert (Hday : day_of now1 = day_of now2 /\
                   (now1 mod DAY) / SECOND = (now2 mod DAY) / SECOND).
    { set (s1 := (now1 mod DAY) / SECOND) in *.
      set (s2 := (now2 mod DAY) / SECOND) in *.
      assert (Hs1 : 0 <= s1 < 86400)
        by (subst s1; unfold DAY, SECOND; Z.div_mod_to_equations; lia).
      assert (Hs2 : 0 <= s2 < 86400)
        by (subst s2; unfold DAY, SECOND; Z.div_mod_to_equations; lia).
      clearbody s1 s2.
      destruct (civil_from_days (day_of now1)) as [[y1 m1] d1] eqn:E1.
      destruct (civil_from_days (day_of now2)) as [[y2 m2] d2] eqn:E2.
      digits_of H.
      assert (y1 = y2) by (Z.div_mod_to_equations; lia).
      assert (m1 = m2) by (Z.div_mod_to_equations; lia).
      assert (d1 = d2) by (Z.div_mod_to_equations; lia).
      split; [apply civil_from_days_inj; congruence|].
      Z.div_mod_to_equations. lia. }
    destruct Hday as [Hd Hs]. unfold day_of, DAY, SECOND in *.
    Z.div_mod_to_equations. lia.
  - intros H. unfold json_path, strftime_Ymd_HMS, strftime_Ymd.
    assert (Hd : day_of now1 = day_of now2)
      by (unfold day_of, DAY, SECOND in *; Z.div_mod_to_equations; lia).
    assert (Hs : (now1 mod DAY) / SECOND = (now2 mod DAY) / SECOND)
      by (unfold day_of, DAY, SECOND in *; Z.div_mod_to_equations; lia).
    now rewrite Hd, Hs.
Qed.

Lemma json_path_same_iff_same_second_witness :
  json_path (Sample.target * DAY + 5) = json_path (Sample.target * DAY + 999999) <->
  (Sample.target * DAY + 5) / SECOND = (Sample.target * DAY + 999999) / SECOND.
Proof.
  apply json_path_same_iff_same_second; unfold datetime_day; vm_compute;
    split; discriminate.
Defined.

(** ** The reporter and the run: order of effects, failures *)

(** Two logs that differ in the way they are put together only. *)
Ltac same_log :=
  repeat (rewrite <- ?app_assoc; cbn [app]); reflexivity.

(** The loop of the reporter prints only, and its value is
    [analysis_results_of]. *)
Lemma analyze_each_run env l acc w :
  exists out,
    analyze_each env l acc w =
      (match analysis_results_of env l with
       | Ok results => Ok (acc ++ results)
       | Raise e => Raise e
       end,
       {| ticks := ticks w; log := log w ++ map Print out |}).
Proof.
  revert acc w. induction l as [|paper rest IH]; intros acc w.
  - exists []. cbn. rewrite !app_nil_r. now destruct w.
  - cbn [analyze_each analysis_results_of].
    unfold bind, print, emit, call. cbn [ticks log].
    destruct (paper_analyzer_analyze_paper env paper) as [result|e].
    + match goal with |- context [analyze_each env rest ?a ?v] =>
        destruct (IH a v) as [out Hout] end.
      exists (MsgAnalysisStart (Scored.title paper) ::
              MsgAnalysisDone (Scored.title paper) :: out).
      rewrite Hout. cbn [ticks log map]. f_equal.
      * destruct (analysis_results_of env rest); [|reflexivity].
        unfold with_paper_fields. now rewrite <- app_assoc.
      * f_equal. rewrite <- !app_assoc. reflexivity.
    + exists [MsgAnalysisStart (Scored.title paper)]. reflexivity.
Qed.

(** [analyze_and_generate_report], step by step: what it has done when it
    ends, by the results of its collaborators. *)
Lemma analyze_and_generate_report_run env papers target_date w :
  let top10 := top10_of (analyzer_analyze_paper env) papers in
  let analysis_file := json_path (clock env (S (ticks w)) + utcoffset env) in
  exists out,
    analyze_and_generate_report env papers target_date w =
      match analysis_results_of env top10 with
      | Raise e =>
          (Raise e,
           {| ticks := S (ticks w);
              log := log w ++ events_before_analysis env papers target_date w ++
                     map Print out |})
      | Ok results =>
          (match analysis_manager_generate_report env results with
           | Raise e => Raise e
           | Ok _ =>
               match email_sender_send_report env results with
               | Raise e => Raise e
               | Ok _ => Ok results
               end
           end,
           {| ticks := S (S (ticks w));
              log := log w ++ events_before_analysis env papers target_date w ++
                     map Print out ++
                     [JsonDump analysis_file results;
                      Print (MsgAnalysisSaved analysis_file);
                      Print MsgHtmlGenerating;
                      GenerateReport results] ++
                     match analysis_manager_generate_report env results with
                     | Raise _ => []
                     | Ok report_file =>
                         [Print (MsgHtmlGenerated report_file);
                          Print MsgEmailSending;
                          SendReport results]
                     end |})
      end.
Proof.
  intros top10 analysis_file.
  unfold analyze_and_generate_report. do 3 run_emit.
  rewrite bind_run, save_top10_run. cbn [ticks log]. fold top10.
  rewrite bind_run.
  match goal with |- context [analyze_each env top10 [] ?v] =>
    destruct (analyze_each_run env top10 [] v) as [out Hout] end.
  exists out. rewrite Hout. cbn [ticks log]. clear Hout.
  unfold events_before_analysis. fold top10.
  destruct (analysis_results_of env top10) as [results|e].
  - cbn [app]. unfold bind, datetime_now, emit, print, call, ret.
    cbn [ticks log]. fold analysis_file.
    destruct (analysis_manager_generate_report env results) as [report_file|e].
    + cbn [ticks log].
      destruct (email_sender_send_report env results); do 2 f_equal; same_log.
    + do 2 f_equal. same_log.
  - do 2 f_equal. same_log.
Qed.

Lemma filter_no_report events :
  Forall (fun ev => is_report_event ev = false) events ->
  filter is_report_event events = [].
Proof.
  induction 1 as [|ev events Hev _ IH]; cbn; [reflexivity|]. now rewrite Hev.
Qed.

Lemma filter_report_prints out : filter is_report_event (map Print out) = [].
Proof. apply filter_no_report, no_report_event_print. Qed.

Lemma filter_report_before env papers target_date w :
  filter is_report_event (events_before_analysis env papers target_date w) = [].
Proof. apply filter_no_report, events_before_analysis_no_report. Qed.

(** X9.  The effects of the report come in one order and on one list: in
    every call of [analyze_and_generate_report] the JSON document, the
    request for the report and the email, as far as the call gets, are the
    first of: dump of [results], report of [results], email of [results].
    So no email is sent without the document written and the report made,
    and when the call returns a list, it is that list and all three have
    happened. *)
Theorem report_effects_in_order env papers target_date w :
  let analysis_file := json_path (clock env (S (ticks w)) + utcoffset env) in
  let done := analyze_and_generate_report env papers target_date w in
  exists events results,
    log (snd done) = log w ++ events /\
    (exists rest,
       filter is_report_event events ++ rest = report_events analysis_file results) /\
    (forall returned,
       fst done = Ok returned ->
       returned = results /\
       filter is_report_event events = report_events analysis_file results).
Proof.
  intros analysis_file done. subst done.
  destruct (analyze_and_generate_report_run env papers target_date w) as [out Hrun].
  rewrite Hrun. clear Hrun. fold analysis_file.
  destruct (analysis_results_of env (top10_of (analyzer_analyze_paper env) papers))
    as [results|e].
  - eexists. exists results. cbn [fst snd log]. split; [reflexivity|].
    rewrite !filter_app, filter_report_before, filter_report_prints.
    destruct (analysis_manager_generate_report env results) as [report_file|e].
    + split; [exists []; reflexivity|].
      intros returned Hret. split; [|reflexivity].
      destruct (email_sender_send_report env results); congruence.
    + split; [exists [SendReport results]; reflexivity|].
      intros returned Hret. discriminate Hret.
  - eexists. exists []. cbn [fst snd log]. split; [reflexivity|].
    rewrite !filter_app, filter_report_before, filter_report_prints.
    split; [eexists; reflexivity|].
    intros returned Hret. discriminate Hret.
Qed.

Lemma dict_get_set_same k v d : dict_get k (dict_set k v d) = Some v.
Proof.
  induction d as [|[k' v'] d IH]; cbn.
  - now rewrite String.eqb_refl.
  - destruct (String.eqb k k') eqn:E; cbn; now rewrite E.
Qed.

Lemma dict_get_set_other k k' v d :
  k <> k' -> dict_get k' (dict_set k v d) = dict_get k' d.
Proof.
  intros Hne. induction d as [|[k0 v0] d IH]; cbn.
  - destruct (String.eqb_spec k' k); [congruence | reflexivity].
  - destruct (String.eqb_spec k k0) as [<-|Hk]; cbn.
    + destruct (String.eqb_spec k' k); [congruence | reflexivity].
    + now rewrite IH.
Qed.

Lemma analysis_results_of_fields env l results :
  analysis_results_of env l = Ok results ->
  Forall2 (fun paper result =>
             exists d, paper_analyzer_analyze_paper env paper = Ok d /\
                       result = with_paper_fields paper d)
          l results.
Proof.
  revert results. induction l as [|paper rest IH]; cbn; intros results H.
  - inversion H. constructor.
  - destruct (paper_analyzer_analyze_paper env paper) as [d|e] eqn:E;
      [|discriminate].
    destruct (analysis_results_of env rest) as [rs|e]; [|discriminate].
    inversion H; subst. constructor; [eauto | now apply IH].
Qed.

Lemma heap_get_set_same r d heap : heap_get r (heap_set r d heap) = Some d.
Proof.
  induction heap as [|[r' d'] heap IH]; cbn.
  - now rewrite Nat.eqb_refl.
  - destruct (Nat.eqb r r') eqn:E; cbn; now rewrite E.
Qed.

Lemma heap_get_set_other r r' d heap :
  r <> r' -> heap_get r' (heap_set r d heap) = heap_get r' heap.
Proof.
  intros Hne. induction heap as [|[r0 d0] heap IH]; cbn.
  - destruct (Nat.eqb_spec r' r); [congruence | reflexivity].
  - destruct (Nat.eqb_spec r r0) as [<-|Hr]; cbn.
    + destruct (Nat.eqb_spec r' r); [congruence | reflexivity].
    + now rewrite IH.
Qed.

(** One turn of the loop on the heap: the object returned holds the fields
    of the paper, the other objects are as they were. *)
Lemma loop_turn_heap paper r d heap :
  let heap' :=
    heap_assign r "html_url" (PyStr (Scored.url paper))
      (heap_assign r "submission_date" (PyStr (Scored.published paper))
         (heap_set r d heap)) in
  heap_get r heap' = Some (with_paper_fields paper d) /\
  (forall r', r' <> r -> heap_get r' heap' = heap_get r' heap).
Proof.
  intros heap'. subst heap'. unfold heap_assign.
  rewrite heap_get_set_same, heap_get_set_same.
  split.
  - rewrite heap_get_set_same. reflexivity.
  - intros r' Hne. rewrite !heap_get_set_other by congruence. reflexivity.
Qed.

Lemma with_paper_fields_carries paper d : carries paper d (with_paper_fields paper d).
Proof.
  unfold carries, with_paper_fields. split; [|split].
  - rewrite dict_get_set_other by discriminate. apply dict_get_set_same.
  - apply dict_get_set_same.
  - intros k Hk1 Hk2. rewrite !dict_get_set_other by congruence. reflexivity.
Qed.

Lemma analyze_each_refs_run service top10 objs heap acc :
  Forall2 (fun paper obj => service paper = Ok obj) top10 objs ->
  exists heap',
    analyze_each_refs service top10 heap acc = (Ok (acc ++ map fst objs), heap') /\
    (forall r, ~ In r (map fst objs) -> heap_get r heap' = heap_get r heap) /\
    (forall i paper r d,
       nth_error top10 i = Some paper ->
       nth_error objs i = Some (r, d) ->
       (forall j obj, (i < j)%nat -> nth_error objs j = Some obj -> fst obj <> r) ->
       heap_get r heap' = Some (with_paper_fields paper d)).
Proof.
  intros Hcalls. revert heap acc.
  induction Hcalls as [|paper [r d] top10 objs Hcall _ IH]; intros heap acc.
  - exists heap. cbn. rewrite app_nil_r.
    refine (conj eq_refl (conj (fun _ _ => eq_refl) _)).
    intros [|i] ? ? ? H; discriminate H.
  - cbn [analyze_each_refs]. rewrite Hcall.
    destruct (loop_turn_heap paper r d heap) as [Hown Hothers].
    match goal with |- context [analyze_each_refs service top10 ?h ?a] =>
      destruct (IH h a) as (heap' & Hrun & Hframe & Hlast) end.
    exists heap'. refine (conj _ (conj _ _)).
    + rewrite Hrun. cbn [map fst]. now rewrite <- app_assoc.
    + intros r' Hr'. cbn [map fst] in Hr'.
      rewrite Hframe by (intros Hin; apply Hr'; now right).
      apply Hothers. intros ->. apply Hr'. now left.
    + intros [|i] paper' r' d' Hp Ho Hlater; cbn [nth_error] in Hp, Ho.
      * inversion Hp; inversion Ho; subst.
        rewrite Hframe; [exact Hown|].
        intros Hin. apply in_map_iff in Hin. destruct Hin as (obj & Hfst & Hin).
        apply In_nth_error in Hin. destruct Hin as [j Hj].
        exact (Hlater (S j) obj ltac:(lia) Hj Hfst).
      * apply (Hlast i paper' r' d' Hp Ho).
        intros j obj Hij Hj. apply (Hlater (S j) obj); [lia | exact Hj].
Qed.

(** Among objects that are all different, each is the last of its kind. *)
Lemma fresh_objects_hold (top10 : list Scored.t) (objs : list (Ref * Dict)) heap :
  (forall i paper r d,
     nth_error top10 i = Some paper ->
     nth_error objs i = Some (r, d) ->
     (forall j obj, (i < j)%nat -> nth_error objs j = Some obj -> fst obj <> r) ->
     heap_get r heap = Some (with_paper_fields paper d)) ->
  NoDup (map fst objs) ->
  forall i paper obj,
    nth_error top10 i = Some paper -> nth_error objs i = Some obj ->
    heap_get (fst obj) heap = Some (with_paper_fields paper (snd obj)).
Proof.
  intros Hlast Hnodup i paper [r d] Hp Ho. apply (Hlast i paper r d Hp Ho).
  intros j obj Hij Hj Heq.
  assert (Hi : nth_error (map fst objs) i = Some r)
    by (rewrite nth_error_map, Ho; reflexivity).
  assert (Hj' : nth_error (map fst objs) j = Some r)
    by (rewrite nth_error_map, Hj; cbn; now rewrite Heq).
  assert (i = j); [|lia].
  apply (proj1 (NoDup_nth_error (map fst objs)) Hnodup).
  - apply nth_error_Some. rewrite Hi. discriminate.
  - now rewrite Hi, Hj'.
Qed.

(** X10.  The results of the loop of [analyze_and_generate_report], as the
    objects they are.  When every analysis returns, the list holds the
    object each call returned, in the order of the top 10.  An object that no
    later call returns again holds, when the loop ends, what its call
    returned with ['submission_date'] set to the date of publication of its
    paper and ['html_url'] to its URL, whatever was under these keys, and the
    other keys as returned.  So with a new dict at every call each result
    carries the fields of its own paper; an object returned again carries
    those of the last paper it was returned for, at every place it has in the
    list. *)
Theorem analysis_results_carry_paper_fields service top10 objs :
  Forall2 (fun paper obj => service paper = Ok obj) top10 objs ->
  exists heap,
    analyze_each_refs service top10 [] [] = (Ok (map fst objs), heap) /\
    (forall i paper r d,
       nth_error top10 i = Some paper ->
       nth_error objs i = Some (r, d) ->
       (forall j obj, (i < j)%nat -> nth_error objs j = Some obj -> fst obj <> r) ->
       exists obj, heap_get r heap = Some obj /\ carries paper d obj) /\
    (NoDup (map fst objs) ->
     Forall2 (fun paper obj =>
                exists items, heap_get (fst obj) heap = Some items /\
                              carries paper (snd obj) items)
             top10 objs).
Proof.
  intros Hcalls.
  destruct (analyze_each_refs_run service top10 objs [] [] Hcalls)
    as (heap & Hrun & _ & Hlast).
  exists heap. refine (conj Hrun (conj _ _)).
  - intros i paper r d Hp Ho Hlater. eexists. split.
    + exact (Hlast i paper r d Hp Ho Hlater).
    + apply with_paper_fields_carries.
  - intros Hnodup.
    pose proof (fresh_objects_hold top10 objs heap Hlast Hnodup) as Hall.
    clear Hrun Hlast Hnodup. revert Hall.
    induction Hcalls as [|paper obj top10 objs _ _ IH]; intros Hall;
      constructor.
    + exists (with_paper_fields paper (snd obj)).
      split; [exact (Hall 0%nat paper obj eq_refl eq_refl)|].
      apply with_paper_fields_carries.
    + apply IH. intros i p o Hp Ho. exact (Hall (S i) p o Hp Ho).
Qed.

(** The service that returns its one dict at every call: both places of
    the list hold that object, which carries the fields of the second
    paper. *)
Lemma analysis_results_carry_paper_fields_witness :
  let top10 := top10_of Sample.scorer [Sample.q1; Sample.q2] in
  exists heap,
    analyze_each_refs Cases.service_shared top10 [] [] = (Ok [0%nat; 0%nat], heap) /\
    exists obj,
      heap_get 0%nat heap = Some obj /\
      dict_get "html_url" obj = Some (PyStr "q1") /\
      dict_get "submission_date" obj = Some (PyStr "2024-02-29").
Proof.
  intros top10.
  destruct (analysis_results_carry_paper_fields Cases.service_shared top10
              (map (fun paper => (0%nat, [("summary"%string,
                                           PyStr (Scored.abstract paper))])) top10))
    as (heap & Hrun & Hlast & _).
  - repeat constructor.
  - exists heap. split; [exact Hrun|].
    destruct (Hlast 1%nat (Scored.set_rank 2 (scored (1 # 2) Sample.q1)) 0%nat
                [("summary"%string, PyStr "abstract")] eq_refl eq_refl)
      as (obj & Hobj & Hdate & Hurl & _).
    + intros [|[|[|j]]] obj Hij Hj; try lia; discriminate Hj.
    + exists obj. refine (conj Hobj (conj Hurl Hdate)).
Defined.

(** With a new dict at every call, the values of the results are those of
    the loop that takes the results as values, [analyze_each]. *)
Lemma results_values env service top10 objs heap :
  Forall2 (fun paper obj => service paper = Ok obj) top10 objs ->
  (forall paper, In paper top10 ->
     paper_analyzer_analyze_paper env paper =
     match service paper with Ok obj => Ok (snd obj) | Raise e => Raise e end) ->
  (forall i paper obj,
     nth_error top10 i = Some paper -> nth_error objs i = Some obj ->
     heap_get (fst obj) heap = Some (with_paper_fields paper (snd obj))) ->
  exists results,
    analysis_results_of env top10 = Ok results /\
    map (fun r => heap_get r heap) (map fst objs) = map Some results.
Proof.
  induction 1 as [|paper obj top10 objs Hcall _ IH]; intros Hvalue Hall.
  - exists []. split; reflexivity.
  - destruct IH as (results & Hresults & Hmap).
    + intros p Hp. apply Hvalue. now right.
    + intros i p o Hp Ho. exact (Hall (S i) p o Hp Ho).
    + exists (with_paper_fields paper (snd obj) :: results).
      cbn [analysis_results_of map].
      rewrite (Hvalue paper (or_introl eq_refl)), Hcall, Hresults.
      split; [reflexivity|].
      rewrite (Hall 0%nat paper obj eq_refl eq_refl), Hmap. reflexivity.
Qed.

Lemma analyze_each_refs_fresh env service top10 objs :
  Forall2 (fun paper obj => service paper = Ok obj) top10 objs ->
  (forall paper, In paper top10 ->
     paper_analyzer_analyze_paper env paper =
     match service paper with Ok obj => Ok (snd obj) | Raise e => Raise e end) ->
  NoDup (map fst objs) ->
  exists heap results,
    analyze_each_refs service top10 [] [] = (Ok (map fst objs), heap) /\
    analysis_results_of env top10 = Ok results /\
    map (fun r => heap_get r heap) (map fst objs) = map Some results.
Proof.
  intros Hcalls Hvalue Hnodup.
  destruct (analyze_each_refs_run service top10 objs [] [] Hcalls)
    as (heap & Hrun & _ & Hlast).
  pose proof (fresh_objects_hold top10 objs heap Hlast Hnodup) as Hall.
  destruct (results_values env service top10 objs heap Hcalls Hvalue Hall)
    as (results & Hresults & Hmap).
  exists heap, results. auto.
Qed.


(** The run when the list is not collected: the exception is printed by
    the collector and again by the run. *)
Lemma run_daily_top10_not_collected env w e :
  fst (collect (client_results env) (run_target_date env w)) = Raise e ->
  run_daily_top10 env w =
    (Ok tt,
     {| ticks := S (ticks w);
        log := log w ++
               [Print (MsgFetching (run_target_date env w))] ++
               map Print (printed (scan (client_results env) (run_target_date env w))) ++
               [Print (MsgCollectError e); Print (MsgRunError e)] |}).
Proof.
  intros Hcollect.
  assert (Hout : snd (collect (client_results env) (run_target_date env w)) =
                 printed (scan (client_results env) (run_target_date env w)) ++
                 [MsgCollectError e]).
  { revert Hcollect. unfold collect.
    destruct (exit (scan (client_results env) (run_target_date env w)));
      try discriminate.
    destruct (papers (final (scan (client_results env) (run_target_date env w))));
      [|discriminate].
    cbn. congruence. }
  unfold run_daily_top10, try_except.
  rewrite bind_run. unfold datetime_now_utc at 1. cbn [ticks log].
  fold (run_target_date env w). run_emit.
  rewrite bind_run, get_specific_date_papers_run, Hcollect, Hout.
  unfold print, emit. cbn [ticks log]. do 2 f_equal.
  rewrite map_app. same_log.
Qed.

(** X11.  When the collector raises, the run stops there: it returns all
    the same, has read the clock once, has made no directory and written no
    file, and has printed, after its first line and the lookback lines, the
    exception twice, once from the collector and once from the run. *)
Theorem collection_failure_ends_run env w e :
  fst (get_specific_date_papers env (run_target_date env w)
         {| ticks := S (ticks w);
            log := log w ++ [Print (MsgFetching (run_target_date env w))] |})
    = Raise e ->
  let r := scan (client_results env) (run_target_date env w) in
  fst (run_daily_top10 env w) = Ok tt /\
  ticks (snd (run_daily_top10 env w)) = S (ticks w) /\
  log (snd (run_daily_top10 env w)) =
    log w ++
    map Print
      ([MsgFetching (run_target_date env w)] ++
       map (fun k => MsgLookback (run_target_date env w) (Z.of_nat k))
           (seq 1 (Z.to_nat (error_retries (final r)))) ++
       [MsgCollectError e; MsgRunError e]).
Proof.
  intros Hcollect r. subst r.
  rewrite get_specific_date_papers_run in Hcollect. cbn [fst] in Hcollect.
  rewrite (run_daily_top10_not_collected env w e Hcollect). cbn [fst snd ticks log].
  refine (conj eq_refl (conj eq_refl _)). f_equal.
  unfold scan. rewrite for_loop_printed.
  cbn [initial_state error_retries]. rewrite Z.sub_0_r.
  rewrite !map_app. reflexivity.
Qed.

Lemma collection_failure_ends_run_witness :
  let env := Sample.env_of Sample.feed_old_then_down Sample.analysis in
  fst (run_daily_top10 env Sample.world0) = Ok tt /\
  ticks (snd (run_daily_top10 env Sample.world0)) = 1%nat /\
  log (snd (run_daily_top10 env Sample.world0)) =
    map Print
      [MsgFetching Sample.target; MsgLookback Sample.target 1;
       MsgLookback Sample.target 2; MsgLookback Sample.target 3;
       MsgCollectError Sample.timeout; MsgRunError Sample.timeout].
Proof.
  intros env.
  assert (Hraise :
    fst (get_specific_date_papers env (run_target_date env Sample.world0)
           {| ticks := S (ticks Sample.world0);
              log := log Sample.world0 ++
                     [Print (MsgFetching (run_target_date env Sample.world0))] |})
      = Raise Sample.timeout) by (vm_compute; reflexivity).
  destruct (collection_failure_ends_run env Sample.world0 Sample.timeout Hraise)
    as (Hok & Hticks & Hlog).
  refine (conj Hok (conj Hticks _)). rewrite Hlog. vm_compute. reflexivity.
Defined.

(** The log of a run that has collected the list, as far as the loop over
    the top 10. *)
Lemma run_daily_top10_log env w papers :
  fst (collect (client_results env) (run_target_date env w)) = Ok papers ->
  let target_date := run_target_date env w in
  let collected :=
    [Print (MsgFetching target_date)] ++
    map Print (snd (collect (client_results env) target_date)) ++
    [Print (MsgFetched (List.length papers))] in
  let w' := {| ticks := S (ticks w); log := log w ++ collected |} in
  exists tail,
    fst (run_daily_top10 env w) = Ok tt /\
    (S (ticks w) < ticks (snd (run_daily_top10 env w)))%nat /\
    log (snd (run_daily_top10 env w)) =
      log w ++ collected ++ events_before_analysis env papers target_date w' ++ tail.
Proof.
  intros Hcollect target_date collected w'.
  rewrite (run_daily_top10_collected env w papers Hcollect).
  fold target_date collected w'.
  destruct (analyze_and_generate_report_run env papers target_date w')
    as [out Hrun].
  rewrite Hrun. clear Hrun. subst w'.
  destruct (analysis_results_of env (top10_of (analyzer_analyze_paper env) papers))
    as [results|e].
  - destruct (analysis_manager_generate_report env results) as [report_file|e].
    + destruct (email_sender_send_report env results);
        eexists; cbn [fst snd ticks log];
        (split; [reflexivity|]); (split; [lia|]);
        rewrite <- !app_assoc; reflexivity.
    + eexists; cbn [fst snd ticks log];
        (split; [reflexivity|]); (split; [lia|]);
        rewrite <- !app_assoc; reflexivity.
  - eexists; cbn [fst snd ticks log];
      (split; [reflexivity|]); (split; [lia|]);
      rewrite <- !app_assoc; reflexivity.
Qed.

(** The run that has collected the list and analysed the top 10: what it
    does from the JSON document on. *)
Lemma run_daily_top10_reported env w papers results :
  fst (collect (client_results env) (run_target_date env w)) = Ok papers ->
  analysis_results_of env (top10_of (analyzer_analyze_paper env) papers) = Ok results ->
  let analysis_file := json_path (clock env (S (S (ticks w))) + utcoffset env) in
  exists before,
    Forall (fun ev => is_report_event ev = false) before /\
    run_daily_top10 env w =
      (Ok tt,
       {| ticks := S (S (S (ticks w)));
          log := log w ++ before ++
                 [JsonDump analysis_file results;
                  Print (MsgAnalysisSaved analysis_file);
                  Print MsgHtmlGenerating;
                  GenerateReport results] ++
                 match analysis_manager_generate_report env results with
                 | Raise e => [Print (MsgRunError e)]
                 | Ok report_file =>
                     [Print (MsgHtmlGenerated report_file);
                      Print MsgEmailSending;
                      SendReport results] ++
                     match email_sender_send_report env results with
                     | Raise e => [Print (MsgRunError e)]
                     | Ok _ => []
                     end
                 end |}).
Proof.
  intros Hcollect Hresults analysis_file.
  rewrite (run_daily_top10_collected env w papers Hcollect).
  match goal with |- context [analyze_and_generate_report env papers ?d ?v] =>
    destruct (analyze_and_generate_report_run env papers d v) as [out Hrun];
    exists (([Print (MsgFetching (run_target_date env w))] ++
             map Print (snd (collect (client_results env) (run_target_date env w))) ++
             [Print (MsgFetched (List.length papers))]) ++
            events_before_analysis env papers d v ++ map Print out)
  end.
  split.
  - apply Forall_app. split.
    + constructor; [reflexivity|]. apply Forall_app.
      split; [apply no_report_event_print | now repeat constructor].
    + apply Forall_app.
      split; [apply events_before_analysis_no_report | apply no_report_event_print].
  - rewrite Hrun, Hresults. clear Hrun. cbn [ticks log]. fold analysis_file.
    destruct (analysis_manager_generate_report env results) as [report_file|e].
    + destruct (email_sender_send_report env results); cbn [ticks log];
        do 2 f_equal; same_log.
    + cbn [ticks log]. do 2 f_equal. same_log.
Qed.

(** X13.  When the renderer raises, the JSON document is already written
    and no email is sent: of the three effects of the report the run has
    made the first two, on the analysed list, and its last line is the
    exception. *)
Theorem renderer_failure_after_json env w papers results e :
  fst (collect (client_results env) (run_target_date env w)) = Ok papers ->
  analysis_results_of env (top10_of (analyzer_analyze_paper env) papers) = Ok results ->
  analysis_manager_generate_report env results = Raise e ->
  let analysis_file := json_path (clock env (S (S (ticks w))) + utcoffset env) in
  exists events,
    run_daily_top10 env w =
      (Ok tt, {| ticks := S (S (S (ticks w)));
                 log := log w ++ events ++ [Print (MsgRunError e)] |}) /\
    filter is_report_event events =
      [JsonDump analysis_file results; GenerateReport results].
Proof.
  intros Hcollect Hresults Hrender analysis_file.
  destruct (run_daily_top10_reported env w papers results Hcollect Hresults)
    as (before & Hbefore & Hrun).
  fold analysis_file in Hrun. rewrite Hrender in Hrun.
  exists (before ++
          [JsonDump analysis_file results; Print (MsgAnalysisSaved analysis_file);
           Print MsgHtmlGenerating; GenerateReport results]).
  split.
  - rewrite Hrun. do 2 f_equal. same_log.
  - rewrite filter_app, (filter_no_report _ Hbefore). reflexivity.
Qed.

Lemma renderer_failure_after_json_witness :
  let analysis_file := "data/analysis/analysis_results_20240301_093002.json"%string in
  exists events,
    run_daily_top10 Cases.env_render_fails Sample.world0 =
      (Ok tt, {| ticks := 3;
                 log := events ++
                        [Print (MsgRunError (Exception "template missing"))] |}) /\
    filter is_report_event events =
      [JsonDump analysis_file Cases.results; GenerateReport Cases.results].
Proof.
  exact (renderer_failure_after_json Cases.env_render_fails Sample.world0
           [Sample.q1; Sample.q2] Cases.results (Exception "template missing")
           eq_refl eq_refl eq_refl).
Defined.

(** X14.  When the email transport raises, the JSON document is written
    and the report is made: the run has made all three effects of the
    report, on the analysed list, and its last line is the exception. *)
Theorem email_failure_after_report env w papers results report_file e :
  fst (collect (client_results env) (run_target_date env w)) = Ok papers ->
  analysis_results_of env (top10_of (analyzer_analyze_paper env) papers) = Ok results ->
  analysis_manager_generate_report env results = Ok report_file ->
  email_sender_send_report env results = Raise e ->
  let analysis_file := json_path (clock env (S (S (ticks w))) + utcoffset env) in
  exists events,
    run_daily_top10 env w =
      (Ok tt, {| ticks := S (S (S (ticks w)));
                 log := log w ++ events ++ [Print (MsgRunError e)] |}) /\
    filter is_report_event events = report_events analysis_file results.
Proof.
  intros Hcollect Hresults Hrender Hsend analysis_file.
  destruct (run_daily_top10_reported env w papers results Hcollect Hresults)
    as (before & Hbefore & Hrun).
  fold analysis_file in Hrun. rewrite Hrender, Hsend in Hrun.
  exists (before ++
          [JsonDump analysis_file results; Print (MsgAnalysisSaved analysis_file);
           Print MsgHtmlGenerating; GenerateReport results;
           Print (MsgHtmlGenerated report_file); Print MsgEmailSending;
           SendReport results]).
  split.
  - rewrite Hrun. do 2 f_equal. same_log.
  - rewrite filter_app, (filter_no_report _ Hbefore). reflexivity.
Qed.

Lemma email_failure_after_report_witness :
  let analysis_file := "data/analysis/analysis_results_20240301_093002.json"%string in
  exists events,
    run_daily_top10 Cases.env_email_fails Sample.world0 =
      (Ok tt, {| ticks := 3;
                 log := events ++ [Print (MsgRunError (Exception "SMTP refused"))] |}) /\
    filter is_report_event events = report_events analysis_file Cases.results.
Proof.
  exact (email_failure_after_report Cases.env_email_fails Sample.world0
           [Sample.q1; Sample.q2] Cases.results "reports/report.html"
           (Exception "SMTP refused") eq_refl eq_refl eq_refl eq_refl).
Defined.

(** X15.  When the list is collected and every collaborator returns, the
    run reads the clock three times (for the target date, the CSV file and
    the JSON file), makes the three effects of the report on the analysed
    list, which has one result per paper of the top 10, and ends with the
    email: no error line is printed after it. *)
Theorem complete_run env w papers results report_file :
  fst (collect (client_results env) (run_target_date env w)) = Ok papers ->
  analysis_results_of env (top10_of (analyzer_analyze_paper env) papers) = Ok results ->
  analysis_manager_generate_report env results = Ok report_file ->
  email_sender_send_report env results = Ok tt ->
  let analysis_file := json_path (clock env (S (S (ticks w))) + utcoffset env) in
  List.length results = Nat.min 10 (List.length papers) /\
  exists events,
    run_daily_top10 env w =
      (Ok tt, {| ticks := S (S (S (ticks w)));
                 log := log w ++ events ++ [SendReport results] |}) /\
    filter is_report_event events =
      [JsonDump analysis_file results; GenerateReport results].
Proof.
  intros Hcollect Hresults Hrender Hsend analysis_file. split.
  - rewrite <- top10_of_length with (f := analyzer_analyze_paper env).
    symmetry. eapply Forall2_length, analysis_results_of_fields, Hresults.
  - destruct (run_daily_top10_reported env w papers results Hcollect Hresults)
      as (before & Hbefore & Hrun).
    fold analysis_file in Hrun. rewrite Hrender, Hsend in Hrun.
    exists (before ++
            [JsonDump analysis_file results; Print (MsgAnalysisSaved analysis_file);
             Print MsgHtmlGenerating; GenerateReport results;
             Print (MsgHtmlGenerated report_file); Print MsgEmailSending]).
    split.
    + rewrite Hrun. do 2 f_equal. same_log.
    + rewrite filter_app, (filter_no_report _ Hbefore). reflexivity.
Qed.

Lemma complete_run_witness :
  let env := Sample.env_of Sample.feed_day Sample.analysis in
  let analysis_file := "data/analysis/analysis_results_20240301_093002.json"%string in
  List.length Cases.results = Nat.min 10 (List.length [Sample.q1; Sample.q2]) /\
  exists events,
    run_daily_top10 env Sample.world0 =
      (Ok tt, {| ticks := 3; log := events ++ [SendReport Cases.results] |}) /\
    filter is_report_event events =
      [JsonDump analysis_file Cases.results; GenerateReport Cases.results].
Proof.
  exact (complete_run (Sample.env_of Sample.feed_day Sample.analysis) Sample.world0
           [Sample.q1; Sample.q2] Cases.results "reports/report.html"
           eq_refl eq_refl eq_refl eq_refl).
Defined.

Lemma collect_raise_printed results target_date e :
  fst (collect results target_date) = Raise e ->
  snd (collect results target_date) =
    printed (scan results target_date) ++ [MsgCollectError e].
Proof.
  unfold collect.
  destruct (exit (scan results target_date)); try discriminate.
  destruct (papers (final (scan results target_date))); [|discriminate].
  cbn. congruence.
Qed.

(** X16.  A run scans the UTC calendar day before the day it runs on.  The
    target date that [run_daily_top10] announces on its first line, and for
    which the collector then runs (its lines follow), has its window from
    the midnight before last to the last midnight, which is not after the
    time of the run.  When the collector returns, the run goes on with its
    list, whose papers were all published before the last midnight and not
    before the start of the window moved back by one day per lookback
    extension made, at most three. *)
Theorem run_window_is_yesterday env w :
  let now := clock env (ticks w) in
  let midnight := day_of now * DAY in
  exists target_date events,
    log (snd (run_daily_top10 env w)) =
      log w ++
      Print (MsgFetching target_date) ::
      map Print (snd (collect (client_results env) target_date)) ++ events /\
    target_start (initial_state target_date) = midnight - DAY /\
    window_end target_date = midnight /\
    midnight <= now < midnight + DAY /\
    (forall papers,
       fst (collect (client_results env) target_date) = Ok papers ->
       let ended := final (scan (client_results env) target_date) in
       (exists rest, events = Print (MsgFetched (List.length papers)) :: rest) /\
       0 <= error_retries ended <= 3 /\
       target_start ended = midnight - DAY - error_retries ended * DAY /\
       Forall (fun p => target_start ended <= published p < midnight) papers).
Proof.
  intros now midnight.
  assert (Hstart : target_start (initial_state (run_target_date env w)) = midnight - DAY).
  { subst midnight. unfold initial_state, run_target_date, day_of. cbn [target_start].
    fold now. unfold DAY. Z.div_mod_to_equations. lia. }
  assert (Hend : window_end (run_target_date env w) = midnight).
  { unfold window_end. cbn [initial_state target_start] in Hstart. lia. }
  assert (Hnow : midnight <= now < midnight + DAY).
  { subst midnight. unfold day_of, DAY. Z.div_mod_to_equations. lia. }
  exists (run_target_date env w).
  destruct (fst (collect (client_results env) (run_target_date env w)))
    as [papers|e] eqn:Hcollect.
  - destruct (run_daily_top10_log env w papers Hcollect) as (tail & _ & _ & Hlog).
    eexists. split; [|refine (conj Hstart (conj Hend (conj Hnow _)))].
    + rewrite Hlog. cbn [app]. rewrite <- app_assoc. reflexivity.
    + intros papers' Hok ended. inversion Hok; subst papers'.
      destruct (scan_invariant (client_results env) (run_target_date env w))
        as (Hr & Hs & Hp).
      fold ended in Hr, Hs, Hp.
      cbn [initial_state target_start] in Hstart.
      refine (conj _ (conj Hr (conj _ _))).
      * cbn [app]. eexists. reflexivity.
      * lia.
      * rewrite (collect_ok_papers _ _ _ Hcollect). fold ended.
        rewrite <- Hend. exact Hp.
  - exists [Print (MsgRunError e)].
    split; [|refine (conj Hstart (conj Hend (conj Hnow _)))].
    + rewrite (run_daily_top10_not_collected env w e Hcollect). cbn [snd log].
      rewrite (collect_raise_printed _ _ _ Hcollect), map_app. cbn [app map].
      rewrite <- app_assoc. reflexivity.
    + intros papers Hok. discriminate Hok.
Qed.

(** X17.  When the clock does not go back between the start of the run and
    the writing of the CSV file, the file is named after a day later than
    the target day; within the years 1000 to 9999 its name is then not the
    name that any instant of the target day gives. *)
Theorem csv_named_after_a_later_day env w papers :
  fst (collect (client_results env) (run_target_date env w)) = Ok papers ->
  clock env (ticks w) <= clock env (S (ticks w)) ->
  let written := clock env (S (ticks w)) in
  (exists df, In (ToCsv (csv_path written) df) (log (snd (run_daily_top10 env w)))) /\
  run_target_date env w < day_of written /\
  (forall t,
     day_of t = run_target_date env w ->
     datetime_day (day_of t) -> datetime_day (day_of written) ->
     csv_path written <> csv_path t).
Proof.
  intros Hcollect Hclock written.
  assert (Hlater : run_target_date env w < day_of written).
  { subst written. unfold run_target_date, day_of, DAY in *.
    Z.div_mod_to_equations. lia. }
  refine (conj _ (conj Hlater _)).
  - destruct (run_daily_top10_log env w papers Hcollect) as (tail & _ & _ & Hlog).
    rewrite Hlog. unfold events_before_analysis. cbn [ticks]. fold written.
    eexists. apply in_or_app. right. apply in_or_app. right.
    apply in_or_app. left. apply in_or_app. right.
    apply in_or_app. right. right. left. reflexivity.
  - intros t Ht Hrt Hrw Hsame.
    apply (csv_path_day _ _ Hrw Hrt) in Hsame. lia.
Qed.

Lemma csv_named_after_a_later_day_witness :
  let env := Sample.env_of Sample.feed_day Sample.analysis in
  let written := clock env 1 in
  (exists df, In (ToCsv (csv_path written) df)
                 (log (snd (run_daily_top10 env Sample.world0)))) /\
  run_target_date env Sample.world0 < day_of written /\
  (forall t,
     day_of t = run_target_date env Sample.world0 ->
     datetime_day (day_of t) -> datetime_day (day_of written) ->
     csv_path written <> csv_path t).
Proof.
  intros env.
  apply (csv_named_after_a_later_day env Sample.world0 [Sample.q1; Sample.q2]).
  - vm_compute. reflexivity.
  - vm_compute. discriminate.
Defined.
